(** * OMG developer tooling: commit-message enhancer and performance gate

    A shallow embedding of [scripts/enhance-commit-messages.py] and
    [scripts/check-perf-regression.py], with the properties of their
    specification stated and proved on it.

    Modelling choices.
    - A Python [str] is a [string]; its characters are the code points
      below 256, so [isspace] and [lower] are the Unicode ones restricted
      to that range.
    - A [dict] loaded from JSON is a [gmap string pyval].
    - A Python [float] is an IEEE binary64 value, a [spec_float] with the
      operations of [SpecFloat] at precision 53 and maximal exponent 1024.
    - A subprocess or a file is an input of the function that uses it:
      what the external world answered is a value, what the code does
      with the answer is the function.
    - Exceptions are the [Raise] branch of [result]; printing is a list of
      messages returned next to the result. *)

From Stdlib Require Import ZArith List Ascii Bool Lia QArith.
From Stdlib Require String.
From Stdlib Require Import SpecFloat.
From stdpp Require Import base gmap strings.

Import ListNotations.
Local Open Scope nat_scope.
#[local] Arguments String.append !_ _ / : simpl nomatch.
#[local] Arguments ascii_dec : simpl never.

(** ** Python string primitives *)

Module Py.

Definition len (s : string) : nat := String.length s.

(** [s.startswith(p)] *)
Definition startswith (p s : string) : bool := String.prefix p s.

(** [str.isspace] on one character: TAB..CR, FS..US, SPACE, NEL, NBSP. *)
Definition isspace (c : ascii) : bool :=
  let n := nat_of_ascii c in
  ((9 <=? n) && (n <=? 13)) || ((28 <=? n) && (n <=? 32))
  || (n =? 133) || (n =? 160).

(** [str.lower] on one character: A..Z and the Latin-1 capitals
    (all of 192..222 but the multiplication sign 215) move up by 32. *)
Definition lower_char (c : ascii) : ascii :=
  let n := nat_of_ascii c in
  if ((65 <=? n) && (n <=? 90))
     || ((192 <=? n) && (n <=? 222) && negb (n =? 215))
  then ascii_of_nat (n + 32) else c.

Fixpoint lower (s : string) : string :=
  match s with
  | EmptyString => EmptyString
  | String c s' => String (lower_char c) (lower s')
  end.

Fixpoint lstrip (s : string) : string :=
  match s with
  | EmptyString => EmptyString
  | String c s' => if isspace c then lstrip s' else s
  end.

Fixpoint rstrip (s : string) : string :=
  match s with
  | EmptyString => EmptyString
  | String c s' =>
      match rstrip s' with
      | EmptyString => if isspace c then EmptyString else String c EmptyString
      | r => String c r
      end
  end.

(** [s.strip()] *)
Definition strip (s : string) : string := rstrip (lstrip s).

(** [sub in s] *)
Fixpoint contains (sub s : string) : bool :=
  String.prefix sub s
  || match s with
     | EmptyString => false
     | String _ s' => contains sub s'
     end.

(** The scan behind [s.split(sep)] for a non-empty [sep]: [cur] is the
    field being read, [skip] the number of characters of a matched
    separator that are still to be passed over.  Occurrences are taken
    leftmost first and do not overlap. *)
Fixpoint split_go (sep : string) (skip : nat) (cur s : string)
  : list string :=
  match s with
  | EmptyString => [cur]
  | String c s' =>
      match skip with
      | S k => split_go sep k cur s'
      | O =>
          if String.prefix sep s
          then cur :: split_go sep (String.length sep - 1) EmptyString s'
          else split_go sep 0 (cur +:+ String c EmptyString) s'
      end
  end.

(** [s.split(sep)] *)
Definition split (sep s : string) : list string :=
  split_go sep 0 EmptyString s.

(** [s.replace(old, new)] for a non-empty [old]. *)
Fixpoint replace_go (old new : string) (skip : nat) (s : string) : string :=
  match s with
  | EmptyString => EmptyString
  | String c s' =>
      match skip with
      | S k => replace_go old new k s'
      | O =>
          if String.prefix old s
          then new +:+ replace_go old new (String.length old - 1) s'
          else String c (replace_go old new 0 s')
      end
  end.

Definition replace (old new s : string) : string := replace_go old new 0 s.

(** [sep.join(l)] *)
Definition join (sep : string) (l : list string) : string :=
  String.concat sep l.

(** [s[:n]] *)
Definition slice_to (n : nat) (s : string) : string :=
  String.substring 0 n s.

(** Iterating over a text file: the lines, each with its line feed. *)
Fixpoint readlines_go (cur s : string) : list string :=
  match s with
  | EmptyString =>
      match cur with EmptyString => [] | _ => [cur] end
  | String c s' =>
      if Ascii.eqb c "010"
      then (cur +:+ String c EmptyString) :: readlines_go EmptyString s'
      else readlines_go (cur +:+ String c EmptyString) s'
  end.

Definition readlines (s : string) : list string :=
  readlines_go EmptyString s.

(** Exceptions the two scripts can meet. *)
Inductive exn :=
| CalledProcessError (returncode : Z)
| OSError
| ValueError
| IndexError
| TypeError
| AttributeError
| OverflowError
| ZeroDivisionError.

Inductive result (A : Type) :=
| Ok (a : A)
| Raise (e : exn).
Arguments Ok {A} a.
Arguments Raise {A} e.

Definition bind {A B} (r : result A) (k : A -> result B) : result B :=
  match r with
  | Ok a => k a
  | Raise e => Raise e
  end.

(** What [subprocess.run(..., capture_output=True, text=True)] hands
    back once the child has run. *)
Record CompletedProcess := {
  returncode : Z;
  stdout : string
}.

(** [subprocess.run] itself raises when the child cannot be started;
    with [check=True] it also raises on a non-zero return code. *)
Definition run (check : bool) (r : result CompletedProcess)
  : result CompletedProcess :=
  bind r (fun p =>
    if check && negb (returncode p =? 0)%Z
    then Raise (CalledProcessError (returncode p))
    else Ok p).

(** [l[:limit]] for an integer [limit]: a negative one counts from the
    end. *)
Definition list_slice_to {A} (limit : Z) (l : list A) : list A :=
  if (0 <=? limit)%Z then firstn (Z.to_nat limit) l
  else firstn (length l - Z.to_nat (- limit)) l.

(** [l[-1]] *)
Definition last_item {A} (l : list A) : result A :=
  match last l with
  | Some x => Ok x
  | None => Raise IndexError
  end.

End Py.

#[global] Instance result_bind : MBind Py.result :=
  fun A B k r => Py.bind r k.

(** A text written line by line: the lines joined by line feeds. *)
Definition nl : string := String "010" EmptyString.
Definition dq : string := String "034" EmptyString.
Definition text (lines : list string) : string := String.concat nl lines.

(** ** The commit-message enhancer *)

Module Enhancer.

Record Commit := {
  hash : string;
  subject : string;
  body : string;
  files_changed : list string;
  stats : string
}.

(** The version-control tool, as the enhancer sees it: the outcome of
    [git log <range> --format=%H|||%s|||%b|||END_COMMIT --name-only] and
    of [git show --stat --format= <hash>]. *)
Record Git := {
  git_log : string -> Py.result Py.CompletedProcess;
  git_show_stat : string -> Py.result Py.CompletedProcess
}.

Definition static_context : string :=
  text [ "";
    "OMG is a unified package manager for Linux that replaces multiple tools:";
    "- System packages: pacman, yay, apt";
    "- Runtime managers: nvm, pyenv, rustup, rbenv, jenv";
    "";
    "Key features:";
    "- 22x faster searches than pacman (6ms vs 133ms)";
    "- 59-483x faster than apt-cache on Debian/Ubuntu";
    "- Unified CLI for system packages + 8 language runtimes";
    "- Enterprise security: SLSA, PGP, SBOM, audit logs";
    "- Team synchronization with omg.lock files";
    "";
    "Target audience: Developers and DevOps engineers "
      +:+ "who want speed and simplicity.";
    "" ].

(** [readme] is the content of README.md when the file exists. *)
Definition _load_project_context (readme : option string) : string :=
  match readme with
  | Some content =>
      static_context +:+ nl +:+ nl +:+ "README excerpt:" +:+ nl
        +:+ Py.slice_to 2000 content
  | None => static_context
  end.

Definition sentinel : string := "|||END_COMMIT".
Definition delimiter : string := "|||".

Definition _get_diff_stats (git : Git) (commit_hash : string)
  : Py.result string :=
  result ← Py.run false (git_show_stat git commit_hash);
  Py.Ok (Py.strip (Py.stdout result)).

(** The test that switches the line scan to files mode. *)
Definition is_path_line (line : string) : bool :=
  Py.startswith "src/" line
  || Py.startswith "docs/" line
  || Py.startswith "tests/" line
  || Py.startswith "Cargo." line
  || Py.startswith "scripts/" line.

(** The three locals of the line loop. *)
Record scan_state := {
  in_files : bool;
  body_lines : list string;
  file_lines : list string
}.

Definition scan_init : scan_state :=
  {| in_files := false; body_lines := []; file_lines := [] |}.

Definition scan_step (st : scan_state) (line : string) : scan_state :=
  if negb (in_files st) && is_path_line line then
    {| in_files := true;
       body_lines := body_lines st;
       file_lines := file_lines st ++ [line] |}
  else if in_files st then
    {| in_files := in_files st;
       body_lines := body_lines st;
       file_lines := file_lines st ++ [line] |}
  else
    {| in_files := in_files st;
       body_lines := body_lines st ++ [line];
       file_lines := file_lines st |}.

Definition scan_lines (lines : list string) : scan_state :=
  fold_left scan_step lines scan_init.

Definition is_empty (s : string) : bool :=
  match s with EmptyString => true | _ => false end.

(** The loop over the raw blocks; [commits] is the list built so far. *)
Fixpoint parse_blocks (git : Git) (raw_commits : list string)
  (commits : list Commit) : Py.result (list Commit) :=
  match raw_commits with
  | [] => Py.Ok commits
  | raw :: rest =>
      if is_empty (Py.strip raw) then parse_blocks git rest commits
      else
        let parts := Py.split delimiter raw in
        if length parts <? 3 then parse_blocks git rest commits
        else
          let commit_hash := Py.strip (nth 0 parts EmptyString) in
          let subject := Py.strip (nth 1 parts EmptyString) in
          let body_and_files :=
            if 2 <? length parts then nth 2 parts EmptyString
            else EmptyString in
          let st := scan_lines (Py.split nl body_and_files) in
          let body := Py.strip (Py.join nl (body_lines st)) in
          let files :=
            List.filter (fun f => negb (is_empty (Py.strip f)))
                        (file_lines st) in
          stats ← _get_diff_stats git commit_hash;
          parse_blocks git rest
            (commits ++ [ {| hash := commit_hash;
                             subject := subject;
                             body := body;
                             files_changed := files;
                             stats := stats |} ])
  end.

Definition get_commits (git : Git) (from_ref to_ref : string)
  : Py.result (list Commit) :=
  result ← Py.run true (git_log git (from_ref +:+ ".." +:+ to_ref));
  parse_blocks git (Py.split sentinel (Py.stdout result)) [].

Definition terse_patterns : list string :=
  [ "fix"; "update"; "add"; "remove"; "chore";
    "refactor"; "notes"; "wip"; "tmp" ].

Definition needs_enhancement (commit : Commit) : bool :=
  if 200 <? Py.len (body commit) then false
  else if Py.startswith "Release v" (subject commit)
          || Py.startswith "Bump version" (subject commit) then false
  else
    let subject_lower := Py.lower (subject commit) in
    if existsb
         (fun pattern =>
            String.eqb subject_lower pattern
            || Py.startswith (pattern +:+ ":") subject_lower
            || Py.startswith (pattern +:+ "(") subject_lower)
         terse_patterns
    then (if Py.len (subject commit) <? 60 then true else false)
    else false.

(** The two static parts of the template around the embedded context. *)
Definition instructions : string :=
  text [ "";
    "";
    "[AI Enhancement Instructions]";
    "Rewrite this commit as a user-focused changelog entry:";
    "";
    "1. Focus on USER IMPACT, not implementation details";
    "2. Explain WHAT changed (for users) and WHY it matters";
    "3. Use clear, jargon-free language";
    "4. Format: " +:+ dq +:+ "<type>(<scope>): <clear description>" +:+ dq;
    "5. Types: feat, fix, perf, docs, refactor, test, chore";
    "6. Add a detailed body if needed explaining the benefit";
    "";
    "Context about OMG:";
    "" ].

Definition examples : string :=
  text [ "";
    "";
    "Example good messages:";
    "- " +:+ dq
      +:+ "feat(debian): incremental index updates "
      +:+ "for 3-5x faster package operations" +:+ dq;
    "- " +:+ dq
      +:+ "fix(cli): ensure sudo prompts work correctly "
      +:+ "in interactive mode" +:+ dq;
    "- " +:+ dq
      +:+ "perf(search): switch to LZ4 compression "
      +:+ "for 60% smaller cache and faster I/O" +:+ dq;
    "";
    "Generate enhanced commit message:";
    "" ].

(** [context] is [self.context], loaded once when the enhancer is built. *)
Definition enhance_commit (context : string) (commit : Commit)
  : option string :=
  let enhanced_template :=
    "Original: " +:+ subject commit +:+ nl +:+ nl
    +:+ "Files changed:" +:+ nl
    +:+ Py.join nl (map (fun f => "  - " +:+ f)
                        (firstn 10 (files_changed commit)))
    +:+ nl +:+ nl
    +:+ "Diff stats:" +:+ nl
    +:+ Py.slice_to 500 (stats commit)
    +:+ instructions
    +:+ Py.slice_to 500 context
    +:+ examples in
  Some enhanced_template.

(** What [preview_enhancements] prints, line by line. *)
Inductive preview_line :=
| PreviewHeader
| Rule
| HashLine (short_hash : string)
| CurrentLine (subject : string)
| FilesLine (count : nat)
| TemplateHeading
| TemplateText (shown : string)
| BlankLine
| FoundLine (enhanced_count : nat)
| TipHeading
| TipUseTemplates
| TipApply (commit_hash : string)
| TipReword.

(** The loop of [preview_enhancements] over [commits[:limit]]. *)
Fixpoint preview_loop (context : string) (commits : list Commit)
  (enhanced_count : nat) (out : list preview_line)
  : list preview_line * Py.result nat :=
  match commits with
  | [] => (out, Py.Ok enhanced_count)
  | commit :: rest =>
      if needs_enhancement commit then
        let enhanced_count := S enhanced_count in
        let out :=
          out ++ [Rule;
                  HashLine (Py.slice_to 8 (hash commit));
                  CurrentLine (subject commit);
                  FilesLine (length (files_changed commit));
                  TemplateHeading] in
        match enhance_commit context commit with
        | None => (out, Py.Raise Py.TypeError)
        | Some template =>
            let shown :=
              if 500 <? Py.len template
              then Py.slice_to 500 template +:+ "..."
              else template in
            preview_loop context rest enhanced_count
              (out ++ [TemplateText shown; BlankLine])
        end
      else preview_loop context rest enhanced_count out
  end.

Definition preview_enhancements (context : string) (commits : list Commit)
  (limit : Z) : list preview_line * Py.result unit :=
  let '(out, counted) :=
    preview_loop context (Py.list_slice_to limit commits) 0
      [PreviewHeader] in
  match counted with
  | Py.Raise e => (out, Py.Raise e)
  | Py.Ok enhanced_count =>
      let out := out ++ [Rule; FoundLine enhanced_count] in
      if 0 <? enhanced_count then
        let out := out ++ [TipHeading; TipUseTemplates] in
        match Py.last_item commits with
        | Py.Raise e => (out, Py.Raise e)
        | Py.Ok oldest =>
            (out ++ [TipApply (hash oldest); TipReword], Py.Ok tt)
        end
      else (out, Py.Ok tt)
  end.

(** The parsed command line. *)
Record Args := {
  from_ref : option string;
  to_ref : string;
  limit : Z
}.

(** What [parser.parse_args()] makes of the command line: the options,
    or the end of the process, with status 0 after the help text and with
    status 2 after a usage error. *)
Inductive command_line :=
| Parsed (args : Args)
| HelpRequested
| UsageError.

(** README.md at the project root: absent, readable with its content,
    or present and raising [e] when opened or read. *)
Inductive readme_file :=
| ReadmeMissing
| ReadmeText (content : string)
| ReadmeUnreadable (e : Py.exn).

(** [CommitEnhancer(project_root)]: the context that it loads. *)
Definition CommitEnhancer (readme : readme_file) : Py.result string :=
  match readme with
  | ReadmeMissing => Py.Ok (_load_project_context None)
  | ReadmeText content => Py.Ok (_load_project_context (Some content))
  | ReadmeUnreadable e => Py.Raise e
  end.

(** What [main] prints. *)
Inductive main_line :=
| HelpText
| UsageErrorText
| NoTagFound
| Analyzing (from_ref to_ref : string)
| FoundCommits (count : nat)
| Preview (line : preview_line)
| GitCommandFailed (e : Py.exn)
| ErrorLine (e : Py.exn)
| Traceback (e : Py.exn).

(** The start of the range: the option, or else the last tag, which
    [git describe --tags --abbrev=0] names; [None] when there is no
    tag. *)
Definition start_ref (args : Args)
  (describe : Py.result Py.CompletedProcess) : Py.result (option string) :=
  match from_ref args with
  | Some given => Py.Ok (Some given)
  | None =>
      result ← Py.run false describe;
      if (Py.returncode result =? 0)%Z
      then Py.Ok (Some (Py.strip (Py.stdout result)))
      else Py.Ok None
  end.

(** [main]: what is printed and the exit status of the process.
    [cli] is the outcome of parsing the command line, [describe] the
    outcome of the tag query, [readme] the state of README.md.  The
    enhancer is built, and README.md read, after the start of the range
    is known and before the [try]: an exception there is not caught. *)
Definition main (cli : command_line)
  (describe : Py.result Py.CompletedProcess)
  (readme : readme_file) (git : Git) : list main_line * Z :=
  match cli with
  | HelpRequested => ([HelpText], 0%Z)
  | UsageError => ([UsageErrorText], 2%Z)
  | Parsed args =>
      match start_ref args describe with
      | Py.Raise e => ([Traceback e], 1%Z)
      | Py.Ok None => ([NoTagFound], 1%Z)
      | Py.Ok (Some from_ref) =>
          let out := [Analyzing from_ref (to_ref args)] in
          match CommitEnhancer readme with
          | Py.Raise e => (out ++ [Traceback e], 1%Z)
          | Py.Ok context =>
              match get_commits git from_ref (to_ref args) with
              | Py.Raise (Py.CalledProcessError returncode) =>
                  (out ++ [GitCommandFailed
                             (Py.CalledProcessError returncode)],
                   1%Z)
              | Py.Raise e => (out ++ [ErrorLine e; Traceback e], 1%Z)
              | Py.Ok commits =>
                  let out := out ++ [FoundCommits (length commits)] in
                  match preview_enhancements context commits (limit args)
                  with
                  | (printed, Py.Ok _) => (out ++ map Preview printed, 0%Z)
                  | (printed, Py.Raise e) =>
                      (out ++ map Preview printed
                           ++ [ErrorLine e; Traceback e],
                       1%Z)
                  end
              end
          end
      end
  end.

End Enhancer.

(** ** The performance-regression gate *)

Module Perf.

(** Binary64 arithmetic. *)
Definition prec : Z := 53.
Definition emax : Z := 1024.

Definition fmul : spec_float -> spec_float -> spec_float := SFmul prec emax.
Definition fdiv : spec_float -> spec_float -> spec_float := SFdiv prec emax.
Definition fsub : spec_float -> spec_float -> spec_float := SFsub prec emax.
Definition flt : spec_float -> spec_float -> bool := SFltb.

(** The float nearest to an integer, ties to even. *)
Definition float_of_Z (z : Z) : spec_float :=
  binary_normalize prec emax z 0 false.

Definition is_zero (f : spec_float) : bool :=
  match f with S754_zero _ => true | _ => false end.

(** The values [json.load] can put under a key. *)
Inductive pyval :=
| PyNone
| PyBool (b : bool)
| PyInt (z : Z)
| PyFloat (f : spec_float)
| PyStr (s : string)
| PyList
| PyDict.

(** What [json.load] returned: an object, or some other JSON value. *)
Inductive document :=
| Dict (d : gmap string pyval)
| NotDict.

(** benchmarks/summary.json on disk. *)
Inductive baseline_file :=
| Missing
| Unloadable
| Loaded (baseline : document).

(** benchmark_report.md on disk. *)
Inductive report_file :=
| Unreadable
| Content (s : string).

(** Implicit conversion of a number to [float] in mixed arithmetic. *)
Definition as_float (v : pyval) : Py.result spec_float :=
  match v with
  | PyBool b => Py.Ok (float_of_Z (if b then 1 else 0))
  | PyInt z =>
      match float_of_Z z with
      | S754_infinity _ => Py.Raise Py.OverflowError
      | f => Py.Ok f
      end
  | PyFloat f => Py.Ok f
  | _ => Py.Raise Py.TypeError
  end.

(** [v == 0] *)
Definition eq_zero (v : pyval) : bool :=
  match v with
  | PyBool b => negb b
  | PyInt z => (z =? 0)%Z
  | PyFloat f => SFeqb f (S754_zero false)
  | _ => false
  end.

(** [baseline.get('search_ms')] *)
Definition get_search_ms (baseline : document) : Py.result pyval :=
  match baseline with
  | Dict d =>
      Py.Ok (match d !! "search_ms" with Some v => v | None => PyNone end)
  | NotDict => Py.Raise Py.AttributeError
  end.

(** The literal [1.15]. *)
Definition threshold : spec_float :=
  S754_finite false 5179139571476070 (-52).

Inductive message :=
| NoBaselineFound
| ErrorLoadingBaseline
| ErrorParsingReport (e : Py.exn)
| SearchNotFound
| InvalidBaseline
| BaselineSearch (baseline_search_ms : pyval)
| CurrentSearch (current_search_ms : spec_float)
| RegressionDetected
| SearchTimeIncreased (diff : spec_float)
| CheckPassed.

Section Comparator.

(** The builtin [float] applied to a string; [None] is [ValueError]. *)
Variable float_of_string : string -> option spec_float.

(** The loop over the lines of the report: the first line with the row
    marker decides. *)
Fixpoint find_search (lines : list string) : Py.result (option spec_float) :=
  match lines with
  | [] => Py.Ok None
  | line :: rest =>
      if Py.contains "| search |" line then
        let parts := Py.split "|" line in
        match nth_error parts 2 with
        | None => Py.Raise Py.IndexError
        | Some cell =>
            let val := Py.replace "ms" "" (Py.strip cell) in
            match float_of_string val with
            | Some f => Py.Ok (Some f)
            | None => Py.Raise Py.ValueError
            end
        end
      else find_search rest
  end.

Definition read_current (report : report_file)
  : Py.result (option spec_float) :=
  match report with
  | Unreadable => Py.Raise Py.OSError
  | Content s => find_search (Py.readlines s)
  end.

(** What was printed, and the value returned or the exception raised. *)
Definition check_regression (latest : baseline_file) (report : report_file)
  : list message * Py.result Z :=
  match latest with
  | Missing => ([NoBaselineFound], Py.Ok 0%Z)
  | Unloadable => ([ErrorLoadingBaseline], Py.Ok 0%Z)
  | Loaded baseline =>
      match read_current report with
      | Py.Raise e => ([ErrorParsingReport e], Py.Ok 1%Z)
      | Py.Ok None => ([SearchNotFound], Py.Ok 1%Z)
      | Py.Ok (Some current_search_ms) =>
          match get_search_ms baseline with
          | Py.Raise e => ([], Py.Raise e)
          | Py.Ok baseline_search_ms =>
              if match baseline_search_ms with PyNone => true | _ => false end
                 || eq_zero baseline_search_ms
              then ([InvalidBaseline], Py.Ok 0%Z)
              else
                let out := [BaselineSearch baseline_search_ms;
                            CurrentSearch current_search_ms] in
                match as_float baseline_search_ms with
                | Py.Raise e => (out, Py.Raise e)
                | Py.Ok b =>
                    if flt (fmul b threshold) current_search_ms then
                      if is_zero b then (out, Py.Raise Py.ZeroDivisionError)
                      else
                        let diff :=
                          fmul (fsub (fdiv current_search_ms b)
                                     (float_of_Z 1))
                               (float_of_Z 100) in
                        (out ++ [RegressionDetected; SearchTimeIncreased diff],
                         Py.Ok 1%Z)
                    else (out ++ [CheckPassed], Py.Ok 0%Z)
                end
          end
      end
  end.

(** [sys.exit(check_regression())]: an uncaught exception ends the
    process with status 1. *)
Definition exit_code (r : list message * Py.result Z) : Z :=
  match snd r with
  | Py.Ok code => code
  | Py.Raise _ => 1%Z
  end.

End Comparator.

(** *** Decimal literals

    The part of the builtin [float] that the report needs: an optional
    sign, digits, and an optional fraction, between optional white space,
    rounded to the nearest binary64. *)

Definition digit_of (c : ascii) : option Z :=
  let n := nat_of_ascii c in
  if (48 <=? n) && (n <=? 57) then Some (Z.of_nat (n - 48)) else None.

(** Reads digits: the number read so far and how many digits it took. *)
Fixpoint read_digits (acc : Z) (count : nat) (s : string)
  : Z * nat * string :=
  match s with
  | EmptyString => (acc, count, s)
  | String c s' =>
      match digit_of c with
      | Some d => read_digits (10 * acc + d) (S count) s'
      | None => (acc, count, s)
      end
  end.

(** The binary64 nearest to [m / 10^k] for [m > 0]. *)
Definition round_ratio (sign : bool) (m : Z) (k : nat) : spec_float :=
  let '(q, e, loc) :=
    SFdiv_core_binary prec emax m 0 (10 ^ Z.of_nat k) 0 in
  binary_round_aux prec emax sign q e loc.

Definition decimal_float (s : string) : option spec_float :=
  let s := Py.strip s in
  let '(sign, s) :=
    match s with
    | String "-" s' => (true, s')
    | String "+" s' => (false, s')
    | _ => (false, s)
    end in
  let '(int_part, n_int, s) := read_digits 0 0 s in
  let '(m, n_frac, s) :=
    match s with
    | String "." s' =>
        let '(m, n, s'') := read_digits int_part 0 s' in (m, n, s'')
    | _ => (int_part, 0, s)
    end in
  match s with
  | EmptyString =>
      if (n_int + n_frac =? 0) then None
      else if (m =? 0)%Z then Some (S754_zero sign)
      else Some (round_ratio sign m n_frac)
  | _ => None
  end.


End Perf.

(** ** Vocabulary of the statements *)

(** [s] starts with [p]. *)
Definition starts_with (p s : string) : Prop := exists r, s = p +:+ r.

(** A terse subject, once in lower case: a terse verb alone, or followed
    at once by a colon or an opening parenthesis. *)
Definition terse_shape (lowered : string) : Prop :=
  exists verb,
    In verb ["fix"; "update"; "add"; "remove"; "chore";
             "refactor"; "notes"; "wip"; "tmp"]
    /\ (lowered = verb
        \/ starts_with (verb +:+ ":") lowered
        \/ starts_with (verb +:+ "(") lowered).

(** The lines before the first path line, and the lines from it on. *)
Fixpoint body_part (lines : list string) : list string :=
  match lines with
  | [] => []
  | line :: rest =>
      if Enhancer.is_path_line line then [] else line :: body_part rest
  end.

Fixpoint files_part (lines : list string) : list string :=
  match lines with
  | [] => []
  | line :: rest =>
      if Enhancer.is_path_line line then lines else files_part rest
  end.

(** Some occurrence of [sep] in [a +:+ r] starts inside [a]. *)
Fixpoint starts_inside (sep a r : string) : bool :=
  match a with
  | EmptyString => false
  | String _ a' => String.prefix sep (a +:+ r) || starts_inside sep a' r
  end.

(** [sep] delimits [field]: in [field +:+ sep] the first occurrence of
    [sep] is the one appended.  For "|||" this says that the field holds
    no "|||" and does not end in '|'. *)
Definition delimited_by (sep field : string) : bool :=
  negb (starts_inside sep field sep).

Fixpoint has_nonspace (s : string) : bool :=
  match s with
  | EmptyString => false
  | String c s' => negb (Py.isspace c) || has_nonspace s'
  end.

Fixpoint mem_char (c : ascii) (s : string) : bool :=
  match s with
  | EmptyString => false
  | String d s' => Ascii.eqb c d || mem_char c s'
  end.

(** The third field of a block: the body, then each file on a line of
    its own. *)
Fixpoint body_and_files (b : string) (fs : list string) : string :=
  match fs with
  | [] => b
  | f :: fs' => body_and_files (b +:+ nl +:+ f) fs'
  end.

(** A block in the format the parser expects, and the log made of it. *)
Definition raw_block (h s third : string) : string :=
  h +:+ Enhancer.delimiter +:+ s +:+ Enhancer.delimiter +:+ third.

Definition log_of (raw : string) : string := raw +:+ Enhancer.sentinel.

(** The record the parser builds from the three fields of a block and
    the outcome of the statistics query. *)
Definition commit_of (h s third : string) (shown : Py.CompletedProcess)
  : Enhancer.Commit :=
  {| Enhancer.hash := Py.strip h;
     Enhancer.subject := Py.strip s;
     Enhancer.body := Py.strip (Py.join nl (body_part (Py.split nl third)));
     Enhancer.files_changed :=
       List.filter (fun f => negb (Enhancer.is_empty (Py.strip f)))
                   (files_part (Py.split nl third));
     Enhancer.stats := Py.strip (Py.stdout shown) |}.

(** A version-control tool that answers every log query with [out] and
    every statistics query with [shown]. *)
Definition constant_git (out : string)
  (shown : Py.result Py.CompletedProcess) : Enhancer.Git :=
  {| Enhancer.git_log :=
       fun _ => Py.Ok {| Py.returncode := 0; Py.stdout := out |};
     Enhancer.git_show_stat := fun _ => shown |}.

(** [x] occurs in [out]. *)
Definition embedded (x out : string) : Prop :=
  exists before after, out = before +:+ x +:+ after.

(** The lines of the template that list the files. *)
Definition file_list (files : list string) : string :=
  Py.join nl (map (fun f => "  - " +:+ f) files).

(** A benchmark report whose search row has [cell] in its OMG column. *)
Definition report_with (cell : string) : string :=
  text [ "# Benchmark Report";
         "";
         "| Command | OMG (Daemon) | pacman | yay | Speedup vs pacman |";
         "|---------|--------------|--------|-----|-------------------|";
         "| search | " +:+ cell +:+ " | 133.00ms | 150.00ms | 1.2x |";
         "| info | 6.50ms | 138.00ms | 300.00ms | 21x |";
         "" ].

(** A report without a search row. *)
Definition report_without_search : string :=
  text [ "# Benchmark Report";
         "";
         "| info | 6.50ms | 138.00ms | 300.00ms | 21x |";
         "" ].

(** The baseline [{"search_ms": v}]. *)
Definition baseline_of (v : Perf.pyval) : Perf.baseline_file :=
  Perf.Loaded (Perf.Dict {[ "search_ms" := v ]}).

(** The percentage that the comparator reports. *)
Definition percent_increase (current b : spec_float) : spec_float :=
  Perf.fmul (Perf.fsub (Perf.fdiv current b) (Perf.float_of_Z 1))
            (Perf.float_of_Z 100).




(** The three fields that the block loop reads from a raw block; [None]
    for a block that it skips. *)
Definition fields_of (raw : string) : option (string * string * string) :=
  if Enhancer.is_empty (Py.strip raw) then None
  else
    match Py.split Enhancer.delimiter raw with
    | h :: s :: third :: _ => Some (h, s, third)
    | _ => None
    end.

(** The record of a block, the statistics query answering [shown hash]
    for each hash. *)
Definition record_of (shown : string -> Py.CompletedProcess)
  (fields : string * string * string) : Enhancer.Commit :=
  let '(h, s, third) := fields in commit_of h s third (shown (Py.strip h)).

(** A log of several blocks, each followed by the sentinel. *)
Fixpoint log_of_blocks (blocks : list (string * string * string)) : string :=
  match blocks with
  | [] => EmptyString
  | (h, s, third) :: rest =>
      raw_block h s third +:+ Enhancer.sentinel +:+ log_of_blocks rest
  end.

(** A block that splits back into its three fields. *)
Definition clean_block (fields : string * string * string) : Prop :=
  let '(h, s, third) := fields in
  delimited_by Enhancer.delimiter h = true
  /\ delimited_by Enhancer.delimiter s = true
  /\ Py.contains Enhancer.delimiter third = false
  /\ Py.contains Enhancer.sentinel (raw_block h s third) = false.

(** What every record of the parser satisfies: trimmed texts, and file
    entries that are single lines with something other than white space
    on them, the first one starting with a known prefix. *)
Definition tidy_record (c : Enhancer.Commit) : Prop :=
  Py.strip (Enhancer.hash c) = Enhancer.hash c
  /\ Py.strip (Enhancer.subject c) = Enhancer.subject c
  /\ Py.strip (Enhancer.body c) = Enhancer.body c
  /\ Py.strip (Enhancer.stats c) = Enhancer.stats c
  /\ Forall (fun f => has_nonspace f = true /\ Py.contains nl f = false)
            (Enhancer.files_changed c)
  /\ match Enhancer.files_changed c with
     | [] => True
     | f :: _ => Enhancer.is_path_line f = true
     end.

(** The template of a commit, as text. *)
Definition template_of (context : string) (commit : Enhancer.Commit)
  : string :=
  match Enhancer.enhance_commit context commit with
  | Some template => template
  | None => EmptyString
  end.

(** The lines that the preview prints for one candidate. *)
Definition preview_entry (context : string) (commit : Enhancer.Commit)
  : list Enhancer.preview_line :=
  [ Enhancer.Rule;
    Enhancer.HashLine (Py.slice_to 8 (Enhancer.hash commit));
    Enhancer.CurrentLine (Enhancer.subject commit);
    Enhancer.FilesLine (length (Enhancer.files_changed commit));
    Enhancer.TemplateHeading;
    Enhancer.TemplateText
      (Py.slice_to 500 (template_of context commit) +:+ "...");
    Enhancer.BlankLine ].

(** The candidates among the commits that the preview looks at. *)
Definition previewed (commits : list Enhancer.Commit) (limit : Z)
  : list Enhancer.Commit :=
  List.filter Enhancer.needs_enhancement (Py.list_slice_to limit commits).

(** * Properties *)

(** ** The primitives on small inputs *)

Example split_takes_leftmost :
  Py.split "|||" "a||||b|||c" = ["a"; "|b"; "c"].
Proof. reflexivity. Qed.

Example split_of_empty : Py.split "|||" "" = [""].
Proof. reflexivity. Qed.

Example split_table_row :
  Py.split "|" "| search | 110.00ms | 133.00ms |"
  = [""; " search "; " 110.00ms "; " 133.00ms "; ""].
Proof. reflexivity. Qed.

Example strip_both_ends : Py.strip ("  a b " +:+ nl) = "a b".
Proof. reflexivity. Qed.

Example replace_every_unit : Py.replace "ms" "" " 12ms3msm" = " 123m".
Proof. reflexivity. Qed.

Example readlines_keep_line_feed :
  Py.readlines ("a" +:+ nl +:+ "b") = ["a" +:+ nl; "b"].
Proof. reflexivity. Qed.

Example lower_subject : Py.lower "Fix(CLI): Sudo" = "fix(cli): sudo".
Proof. reflexivity. Qed.

Example delimited_fields :
  delimited_by "|||" "a|b" = true
  /\ delimited_by "|||" "a|" = false
  /\ delimited_by "|||" "a|||b" = false.
Proof. repeat split. Qed.

Example static_context_length : Py.len Enhancer.static_context = 506.
Proof. reflexivity. Qed.

Example candidate_wip :
  Enhancer.needs_enhancement
    {| Enhancer.hash := "abc123"; Enhancer.subject := "WIP";
       Enhancer.body := ""; Enhancer.files_changed := [];
       Enhancer.stats := "" |}
  = true.
Proof. reflexivity. Qed.

Example not_candidate_long_word :
  Enhancer.needs_enhancement
    {| Enhancer.hash := "abc123"; Enhancer.subject := "fixes parser";
       Enhancer.body := ""; Enhancer.files_changed := [];
       Enhancer.stats := "" |}
  = false.
Proof. reflexivity. Qed.

Example one_hundred : Perf.float_of_Z 100
  = S754_finite false 7036874417766400 (-46).
Proof. reflexivity. Qed.

(** ** Strings *)

Section StringFacts.

Implicit Types (s t u p r : string) (c : ascii).

Lemma str_app_nil_r s : s +:+ "" = s.
Proof. induction s as [|c s IH]; simpl; [reflexivity | now rewrite IH]. Qed.

Lemma str_app_assoc s t u : (s +:+ t) +:+ u = s +:+ (t +:+ u).
Proof. induction s as [|c s IH]; simpl; [reflexivity | now rewrite IH]. Qed.

Lemma str_length_app s t :
  String.length (s +:+ t) = String.length s + String.length t.
Proof. induction s as [|c s IH]; simpl; [reflexivity | now rewrite IH]. Qed.

Lemma str_app_inv_head p s t : p +:+ s = p +:+ t -> s = t.
Proof. induction p as [|c p IH]; simpl; [auto | intros [= H]; auto]. Qed.

Lemma prefix_nil s : String.prefix "" s = true.
Proof. now destruct s. Qed.

Lemma prefix_cons c p d s :
  String.prefix (String c p) (String d s)
  = (if ascii_dec c d then String.prefix p s else false).
Proof. reflexivity. Qed.

Lemma prefix_app p r : String.prefix p (p +:+ r) = true.
Proof.
  induction p as [|c p IH]; simpl; [apply prefix_nil|].
  destruct (ascii_dec c c); [exact IH | congruence].
Qed.

Lemma prefix_inv p s : String.prefix p s = true -> exists r, s = p +:+ r.
Proof.
  revert s; induction p as [|c p IH]; intros s H.
  - now exists s.
  - destruct s as [|d s]; [discriminate|].
    rewrite prefix_cons in H.
    destruct (ascii_dec c d) as [->|]; [|discriminate].
    destruct (IH _ H) as [r ->]. now exists r.
Qed.

Lemma prefix_iff p s : String.prefix p s = true <-> exists r, s = p +:+ r.
Proof.
  split; [apply prefix_inv | intros [r ->]; apply prefix_app].
Qed.

Lemma prefix_false_iff p s :
  String.prefix p s = false <-> ~ exists r, s = p +:+ r.
Proof.
  rewrite <- prefix_iff.
  destruct (String.prefix p s); split; intros; congruence.
Qed.

End StringFacts.

(** ** The terseness classifier *)

Section Classifier.

Import Enhancer.

Lemma terse_shape_existsb lowered :
  existsb
    (fun pattern =>
       String.eqb lowered pattern
       || Py.startswith (pattern +:+ ":") lowered
       || Py.startswith (pattern +:+ "(") lowered)
    terse_patterns = true
  <-> terse_shape lowered.
Proof.
  rewrite existsb_exists. unfold terse_shape, starts_with, Py.startswith.
  split; intros (verb & Hin & H); exists verb; (split; [exact Hin|]).
  - rewrite !orb_true_iff, String.eqb_eq, !prefix_iff in H. tauto.
  - rewrite !orb_true_iff, String.eqb_eq, !prefix_iff. tauto.
Qed.

Lemma needs_enhancement_eq commit :
  needs_enhancement commit
  = negb (200 <? Py.len (body commit))
    && negb (Py.startswith "Release v" (subject commit))
    && negb (Py.startswith "Bump version" (subject commit))
    && existsb
         (fun pattern =>
            String.eqb (Py.lower (subject commit)) pattern
            || Py.startswith (pattern +:+ ":") (Py.lower (subject commit))
            || Py.startswith (pattern +:+ "(") (Py.lower (subject commit)))
         terse_patterns
    && (Py.len (subject commit) <? 60).
Proof.
  unfold needs_enhancement. cbv zeta.
  destruct (200 <? Py.len (body commit)); [reflexivity|].
  destruct (Py.startswith "Release v" (subject commit)); [reflexivity|].
  destruct (Py.startswith "Bump version" (subject commit)); [reflexivity|].
  match goal with |- context [existsb ?f ?l] => destruct (existsb f l) end;
    [|reflexivity].
  now destruct (Py.len (subject commit) <? 60).
Qed.

(** C1. The classifier answers "candidate" exactly when the body has at
    most 200 characters, the subject starts with neither "Release v" nor
    "Bump version", the subject in lower case is a terse verb alone or
    followed at once by ':' or '(', and the subject as written is shorter
    than 60 characters.  So a body of more than 200 characters, or a
    release subject, is never a candidate. *)
Theorem needs_enhancement_iff :
  (forall commit,
      needs_enhancement commit = true
      <-> String.length (body commit) <= 200
          /\ ~ starts_with "Release v" (subject commit)
          /\ ~ starts_with "Bump version" (subject commit)
          /\ terse_shape (Py.lower (subject commit))
          /\ String.length (subject commit) < 60)
  /\ (forall commit,
         200 < String.length (body commit) ->
         needs_enhancement commit = false)
  /\ (forall commit,
         starts_with "Release v" (subject commit)
         \/ starts_with "Bump version" (subject commit) ->
         needs_enhancement commit = false).
Proof.
  assert (Hiff : forall commit,
      needs_enhancement commit = true
      <-> String.length (body commit) <= 200
          /\ ~ starts_with "Release v" (subject commit)
          /\ ~ starts_with "Bump version" (subject commit)
          /\ terse_shape (Py.lower (subject commit))
          /\ String.length (subject commit) < 60).
  { intros commit. rewrite needs_enhancement_eq.
    rewrite !andb_true_iff, !negb_true_iff, terse_shape_existsb.
    unfold Py.len, Py.startswith, starts_with.
    rewrite Nat.ltb_ge, Nat.ltb_lt, !prefix_false_iff. tauto. }
  split; [exact Hiff|]. split.
  - intros commit Hlen.
    destruct (needs_enhancement commit) eqn:E; [|reflexivity].
    apply Hiff in E. lia.
  - intros commit Hrel.
    destruct (needs_enhancement commit) eqn:E; [|reflexivity].
    apply Hiff in E. tauto.
Qed.

End Classifier.

(** ** The line scan of the history parser *)

Section LineScan.

Import Enhancer.

Lemma scan_step_in_files st line :
  in_files st = true ->
  scan_step st line
  = {| in_files := true;
       body_lines := body_lines st;
       file_lines := file_lines st ++ [line] |}.
Proof.
  intros H. unfold scan_step. rewrite H. reflexivity.
Qed.

Lemma scan_step_body st line :
  in_files st = false -> is_path_line line = false ->
  scan_step st line
  = {| in_files := false;
       body_lines := body_lines st ++ [line];
       file_lines := file_lines st |}.
Proof.
  intros H1 H2. unfold scan_step. rewrite H1, H2. reflexivity.
Qed.

Lemma scan_step_switch st line :
  in_files st = false -> is_path_line line = true ->
  scan_step st line
  = {| in_files := true;
       body_lines := body_lines st;
       file_lines := file_lines st ++ [line] |}.
Proof.
  intros H1 H2. unfold scan_step. rewrite H1, H2. reflexivity.
Qed.

(** Files mode is absorbing: every further line is a file line. *)
Lemma scan_files_mode lines : forall st,
  in_files st = true ->
  fold_left scan_step lines st
  = {| in_files := true;
       body_lines := body_lines st;
       file_lines := file_lines st ++ lines |}.
Proof.
  induction lines as [|line lines IH]; intros st H; simpl.
  - rewrite List.app_nil_r. destruct st; simpl in *; now subst.
  - rewrite IH by (rewrite scan_step_in_files by exact H; reflexivity).
    rewrite scan_step_in_files by exact H. simpl.
    now rewrite <- List.app_assoc.
Qed.

(** Body mode lasts as long as no line looks like a path. *)
Lemma scan_body_mode pre : forall st rest,
  in_files st = false ->
  Forall (fun line => is_path_line line = false) pre ->
  fold_left scan_step (pre ++ rest) st
  = fold_left scan_step rest
      {| in_files := false;
         body_lines := body_lines st ++ pre;
         file_lines := file_lines st |}.
Proof.
  induction pre as [|line pre IH]; intros st rest Hst Hpre; simpl.
  - rewrite List.app_nil_r. destruct st; simpl in *; now subst.
  - inversion Hpre as [|? ? Hline Hpre']; subst.
    rewrite scan_step_body by assumption.
    rewrite IH by (simpl; auto). simpl. now rewrite <- List.app_assoc.
Qed.

Lemma body_files_part lines : body_part lines ++ files_part lines = lines.
Proof.
  induction lines as [|line rest IH]; simpl; [reflexivity|].
  destruct (is_path_line line); simpl; [reflexivity | now rewrite IH].
Qed.

Lemma body_part_no_path lines :
  Forall (fun line => is_path_line line = false) (body_part lines).
Proof.
  induction lines as [|line rest IH]; simpl; [constructor|].
  destruct (is_path_line line) eqn:E; [constructor | now constructor].
Qed.

Lemma files_part_head lines :
  match files_part lines with
  | [] => True
  | line :: _ => is_path_line line = true
  end.
Proof.
  induction lines as [|line rest IH]; simpl; [exact I|].
  destruct (is_path_line line) eqn:E; [exact E | exact IH].
Qed.

Lemma scan_lines_parts lines :
  scan_lines lines
  = {| in_files := match files_part lines with [] => false | _ => true end;
       body_lines := body_part lines;
       file_lines := files_part lines |}.
Proof.
  unfold scan_lines.
  rewrite <- (body_files_part lines) at 1.
  rewrite scan_body_mode by (auto using body_part_no_path). simpl.
  pose proof (files_part_head lines) as Hhead.
  destruct (files_part lines) as [|line rest]; [reflexivity|].
  simpl. rewrite scan_step_switch by auto.
  rewrite scan_files_mode by reflexivity. reflexivity.
Qed.

(** C3. The switch from body mode to files mode is irrevocable: once the
    scan is in files mode, every line that follows is a file line and the
    body lines no longer change; so the body lines of a block are exactly
    its lines before the first line that starts with a known prefix, and
    the file lines are that line and every line after it. *)
Theorem scan_transition_irrevocable :
  (forall st lines,
      in_files st = true ->
      in_files (fold_left scan_step lines st) = true
      /\ body_lines (fold_left scan_step lines st) = body_lines st
      /\ file_lines (fold_left scan_step lines st) = file_lines st ++ lines)
  /\ (forall lines,
         exists before after,
           lines = before ++ after
           /\ Forall (fun line => is_path_line line = false) before
           /\ match after with
              | [] => True
              | line :: _ => is_path_line line = true
              end
           /\ body_lines (scan_lines lines) = before
           /\ file_lines (scan_lines lines) = after).
Proof.
  split.
  - intros st lines H. rewrite scan_files_mode by exact H. simpl. auto.
  - intros lines. exists (body_part lines), (files_part lines).
    rewrite scan_lines_parts. simpl.
    split; [symmetry; apply body_files_part|].
    split; [apply body_part_no_path|].
    split; [apply files_part_head|]. auto.
Qed.

End LineScan.

(** ** Splitting and joining *)

Section SplitFacts.

Implicit Types (s t u v p r a sep cur : string) (c d : ascii).

Lemma prefix_app_long p : forall x y,
  String.length p <= String.length x ->
  String.prefix p (x +:+ y) = String.prefix p x.
Proof.
  induction p as [|c p IH]; intros x y Hlen.
  - now rewrite !prefix_nil.
  - destruct x as [|d x]; simpl in Hlen; [lia|].
    simpl. destruct (ascii_dec c d); [apply IH; lia | reflexivity].
Qed.

Lemma split_go_skip sep u : forall cur r,
  Py.split_go sep (String.length u) cur (u +:+ r) = Py.split_go sep 0 cur r.
Proof.
  induction u as [|c u IH]; intros cur r; simpl; [reflexivity | apply IH].
Qed.

Lemma split_go_match c sep cur r :
  Py.split_go (String c sep) 0 cur (String c sep +:+ r)
  = cur :: Py.split_go (String c sep) 0 "" r.
Proof.
  change (String c sep +:+ r) with (String c (sep +:+ r)).
  cbn [Py.split_go].
  change (String c (sep +:+ r)) with (String c sep +:+ r).
  rewrite prefix_app. f_equal. simpl. rewrite Nat.sub_0_r.
  apply split_go_skip.
Qed.

Lemma starts_inside_false sep a r :
  starts_inside sep a r = false <->
  forall u v, a = u +:+ v -> v <> "" -> String.prefix sep (v +:+ r) = false.
Proof.
  induction a as [|c a IH]; simpl.
  - split; [|reflexivity]. intros _ u v H Hv.
    destruct u, v; simpl in H; congruence.
  - rewrite orb_false_iff, IH. split.
    + intros [H1 H2] u v Huv Hv. destruct u as [|d u]; simpl in Huv.
      * now subst v.
      * injection Huv as -> ->. now apply (H2 u v).
    + intros H. split.
      * apply (H "" (String c a)); [reflexivity | discriminate].
      * intros u v -> Hv. apply (H (String c u) v); [reflexivity | exact Hv].
Qed.

Lemma starts_inside_cons sep c a r :
  starts_inside sep (String c a) r = false ->
  String.prefix sep (String c (a +:+ r)) = false
  /\ starts_inside sep a r = false.
Proof. simpl. now rewrite orb_false_iff. Qed.

(** With no occurrence starting inside [a], the scan reads [a] into the
    current field. *)
Lemma split_go_clean sep a : forall cur r,
  starts_inside sep a r = false ->
  Py.split_go sep 0 cur (a +:+ r) = Py.split_go sep 0 (cur +:+ a) r.
Proof.
  induction a as [|c a IH]; intros cur r H.
  - simpl. now rewrite str_app_nil_r.
  - apply starts_inside_cons in H as [H1 H2].
    change (String c a +:+ r) with (String c (a +:+ r)).
    cbn [Py.split_go]. rewrite H1, IH by exact H2.
    now rewrite str_app_assoc.
Qed.

Lemma split_first c sep a r :
  starts_inside (String c sep) a (String c sep +:+ r) = false ->
  Py.split (String c sep) (a +:+ String c sep +:+ r)
  = a :: Py.split (String c sep) r.
Proof.
  intros H. unfold Py.split.
  rewrite split_go_clean by exact H. simpl (EmptyString +:+ a).
  apply split_go_match.
Qed.

Lemma split_none sep a :
  starts_inside sep a "" = false -> Py.split sep a = [a].
Proof.
  intros H. unfold Py.split.
  rewrite <- (str_app_nil_r a) at 1. rewrite split_go_clean by exact H.
  reflexivity.
Qed.

(** What follows the separator does not matter for [delimited_by]. *)
Lemma delimited_by_clean sep a r :
  delimited_by sep a = true -> starts_inside sep a (sep +:+ r) = false.
Proof.
  unfold delimited_by. rewrite negb_true_iff, !starts_inside_false.
  intros H u v Huv Hv. rewrite <- (H u v Huv Hv).
  rewrite <- str_app_assoc. apply prefix_app_long.
  rewrite str_length_app. destruct v; [congruence | simpl; lia].
Qed.

Lemma contains_clean sep a :
  Py.contains sep a = false -> starts_inside sep a "" = false.
Proof.
  induction a as [|c a IH]; simpl; [reflexivity|].
  rewrite !orb_false_iff, str_app_nil_r. intros [H1 H2]. auto.
Qed.

Lemma contains_suffix sep u : forall v,
  Py.contains sep (u +:+ v) = false -> String.prefix sep v = false.
Proof.
  induction u as [|c u IH]; intros v H.
  - destruct v; simpl in H; now apply orb_false_iff in H.
  - simpl in H. apply orb_false_iff in H as [_ H]. now apply IH.
Qed.

Lemma split_go_nonempty sep s : forall skip cur,
  Py.split_go sep skip cur s <> [].
Proof.
  induction s as [|c s IH]; intros skip cur.
  - intros [=].
  - cbn [Py.split_go]. destruct skip; [|apply IH].
    destruct (String.prefix sep (String c s)); [intros [=] | apply IH].
Qed.

(** Separators of one character. *)
Lemma split_char_app c a : forall cur r,
  Py.split_go (String c "") 0 cur (a +:+ String c r)
  = Py.split_go (String c "") 0 cur a ++ Py.split_go (String c "") 0 "" r.
Proof.
  induction a as [|d a IH]; intros cur r.
  - simpl. destruct (ascii_dec c c); [|congruence].
    now rewrite prefix_nil.
  - simpl. destruct (ascii_dec c d).
    + rewrite !prefix_nil. simpl. now rewrite IH.
    + apply IH.
Qed.

Lemma join_split_char c a : forall cur,
  String.concat (String c "") (Py.split_go (String c "") 0 cur a) = cur +:+ a.
Proof.
  induction a as [|d a IH]; intros cur.
  - simpl. now rewrite str_app_nil_r.
  - simpl. destruct (ascii_dec c d) as [->|].
    + rewrite prefix_nil. simpl.
      pose proof (split_go_nonempty (String d "") a 0 "") as Hne.
      specialize (IH "").
      destruct (Py.split_go (String d "") 0 "" a); [congruence|].
      now rewrite IH.
    + rewrite IH. now rewrite str_app_assoc.
Qed.

Lemma join_split_nl b : Py.join nl (Py.split nl b) = b.
Proof. unfold Py.join, Py.split, nl. now rewrite join_split_char. Qed.

Lemma prefix_app_break sep c :
  mem_char c sep = false ->
  forall a t, String.prefix sep (a +:+ String c t) = String.prefix sep a.
Proof.
  induction sep as [|x sep IH]; intros Hc a t.
  - now rewrite !prefix_nil.
  - simpl in Hc. apply orb_false_iff in Hc as [Hx Hc].
    apply Ascii.eqb_neq in Hx.
    destruct a as [|y a]; simpl.
    + destruct (ascii_dec x c); [congruence | reflexivity].
    + destruct (ascii_dec x y); [now apply IH | reflexivity].
Qed.

Lemma contains_app_break x sep c a t :
  mem_char c (String x sep) = false ->
  Py.contains (String x sep) (a +:+ String c t)
  = Py.contains (String x sep) a || Py.contains (String x sep) t.
Proof.
  intros Hc. induction a as [|y a IH].
  - change ("" +:+ String c t) with (String c t).
    cbn [Py.contains].
    pose proof (prefix_app_break _ _ Hc "" t) as H.
    change ("" +:+ String c t) with (String c t) in H. rewrite H.
    reflexivity.
  - change (String y a +:+ String c t) with (String y (a +:+ String c t)).
    cbn [Py.contains]. rewrite IH.
    change (String y (a +:+ String c t)) with (String y a +:+ String c t).
    rewrite (prefix_app_break _ _ Hc). now rewrite orb_assoc.
Qed.

Lemma prefix_app_mono p a y :
  String.prefix p a = true -> String.prefix p (a +:+ y) = true.
Proof.
  intros H. apply prefix_inv in H as [r ->].
  rewrite str_app_assoc. apply prefix_app.
Qed.

(** A text that holds [sep] is cut at its first occurrence. *)
Lemma first_occurrence sep : forall t,
  Py.contains sep t = true ->
  exists x y, t = x +:+ sep +:+ y /\ delimited_by sep x = true.
Proof.
  unfold delimited_by.
  induction t as [|c t IH]; intros H.
  - cbn [Py.contains] in H. rewrite orb_false_r in H.
    apply prefix_inv in H as [r Hr]. now exists "", r.
  - destruct (String.prefix sep (String c t)) eqn:Hp.
    + apply prefix_inv in Hp as [r Hr]. now exists "", r.
    + cbn [Py.contains] in H. rewrite Hp in H.
      destruct (IH H) as (x & y & -> & Hx).
      exists (String c x), y. split; [reflexivity|].
      apply negb_true_iff in Hx. apply negb_true_iff.
      cbn [starts_inside]. rewrite Hx, orb_false_r.
      destruct (String.prefix sep (String c x +:+ sep)) eqn:E;
        [|reflexivity].
      apply (prefix_app_mono _ _ y) in E.
      rewrite str_app_assoc in E.
      change (String c x +:+ sep +:+ y) with (String c (x +:+ sep +:+ y)) in E.
      congruence.
Qed.

End SplitFacts.

(** ** Trimming *)

Section StripFacts.

Implicit Types (s t a b : string) (c : ascii).

Lemma has_nonspace_app a b :
  has_nonspace (a +:+ b) = has_nonspace a || has_nonspace b.
Proof.
  induction a as [|c a IH]; simpl; [reflexivity|].
  now rewrite IH, orb_assoc.
Qed.

Lemma lstrip_nonspace s :
  has_nonspace s = true ->
  exists c t, Py.lstrip s = String c t /\ Py.isspace c = false.
Proof.
  induction s as [|c s IH]; simpl; [discriminate|].
  destruct (Py.isspace c) eqn:E; simpl; [exact IH|].
  intros _. now exists c, s.
Qed.

Lemma rstrip_nonempty c t :
  Py.isspace c = false -> Py.rstrip (String c t) <> "".
Proof.
  intros E. cbn [Py.rstrip]. rewrite E.
  destruct (Py.rstrip t); intros [=].
Qed.

Lemma strip_nonempty s :
  has_nonspace s = true -> Enhancer.is_empty (Py.strip s) = false.
Proof.
  intros H. destruct (lstrip_nonspace s H) as (c & t & Hl & Hc).
  unfold Py.strip. rewrite Hl.
  pose proof (rstrip_nonempty c t Hc) as Hne.
  destruct (Py.rstrip (String c t)); [congruence | reflexivity].
Qed.

Lemma path_line_nonspace f :
  Enhancer.is_path_line f = true -> has_nonspace f = true.
Proof.
  unfold Enhancer.is_path_line, Py.startswith.
  rewrite !orb_true_iff.
  intros [[[[H|H]|H]|H]|H]; apply prefix_inv in H as [r ->];
    rewrite has_nonspace_app; reflexivity.
Qed.

Lemma filter_path_lines fs :
  Forall (fun f => Enhancer.is_path_line f = true) fs ->
  List.filter (fun f => negb (Enhancer.is_empty (Py.strip f))) fs = fs.
Proof.
  induction 1 as [|f fs Hf _ IH]; [reflexivity|].
  cbn [List.filter]. rewrite strip_nonempty by now apply path_line_nonspace.
  simpl. now rewrite IH.
Qed.

Lemma strip_blank s : has_nonspace s = false -> Py.strip s = "".
Proof.
  unfold Py.strip. induction s as [|c s IH]; simpl; [reflexivity|].
  destruct (Py.isspace c); simpl; [exact IH | discriminate].
Qed.

End StripFacts.

(** ** The history parser *)

Section ParserFacts.

Import Enhancer.

Implicit Types (h s b f v raw third : string) (fs : list string).

Ltac decide_chars :=
  repeat match goal with
    | |- context [ascii_dec ?a ?b] =>
        destruct (ascii_dec a b) as [E|E];
        [ first [discriminate E | subst] | reflexivity ]
    end.

(** The sentinel does not overlap itself: an occurrence cannot start in
    the text before it and run into it. *)
Lemma sentinel_no_overlap v :
  v <> "" ->
  String.prefix sentinel v = false ->
  String.prefix sentinel (v +:+ sentinel) = false.
Proof.
  intros Hne H.
  destruct (le_lt_dec (String.length sentinel) (String.length v)) as [Hl|Hl].
  { now rewrite prefix_app_long. }
  clear H. unfold sentinel in *. simpl in Hl.
  do 13 (destruct v as [|? v];
         [try congruence; simpl; decide_chars; reflexivity|]).
  simpl in Hl. lia.
Qed.

Lemma sentinel_clean raw :
  Py.contains sentinel raw = false ->
  starts_inside sentinel raw sentinel = false.
Proof.
  intros H. apply starts_inside_false.
  intros u v -> Hv. apply sentinel_no_overlap; [exact Hv|].
  now apply (contains_suffix _ u).
Qed.

Lemma split_log raw :
  Py.contains sentinel raw = false ->
  Py.split sentinel (log_of raw) = [raw; ""].
Proof.
  intros H. unfold log_of.
  pose proof (split_first "|" "||END_COMMIT" raw "") as Hs.
  change (String "|" "||END_COMMIT" +:+ "") with sentinel in Hs.
  change (String "|" "||END_COMMIT") with sentinel in Hs.
  rewrite Hs; [reflexivity | now apply sentinel_clean].
Qed.

Lemma split_block h s third :
  delimited_by delimiter h = true ->
  delimited_by delimiter s = true ->
  Py.contains delimiter third = false ->
  Py.split delimiter (raw_block h s third) = [h; s; third].
Proof.
  intros Hh Hs Ht. unfold raw_block, delimiter in *.
  rewrite split_first by now apply (delimited_by_clean (String "|" "||")).
  rewrite split_first by now apply (delimited_by_clean (String "|" "||")).
  rewrite split_none by now apply contains_clean.
  reflexivity.
Qed.

Lemma split_block_more h s x y :
  delimited_by delimiter h = true ->
  delimited_by delimiter s = true ->
  delimited_by delimiter x = true ->
  Py.split delimiter (raw_block h s (x +:+ delimiter +:+ y))
  = h :: s :: x :: Py.split delimiter y.
Proof.
  intros Hh Hs Hx. unfold raw_block, delimiter in *.
  now rewrite !split_first
    by now apply (delimited_by_clean (String "|" "||")).
Qed.

Lemma raw_block_nonspace h s third : has_nonspace (raw_block h s third) = true.
Proof.
  unfold raw_block. rewrite !has_nonspace_app.
  change (has_nonspace delimiter) with true. now rewrite orb_true_r.
Qed.

Lemma get_diff_stats_completed git commit_hash shown :
  git_show_stat git commit_hash = Py.Ok shown ->
  _get_diff_stats git commit_hash = Py.Ok (Py.strip (Py.stdout shown)).
Proof.
  intros H. unfold _get_diff_stats, mbind, result_bind, Py.run. rewrite H.
  reflexivity.
Qed.

(** One iteration of the block loop on a well-formed block, followed by
    the empty block that the final sentinel leaves behind. *)
Lemma parse_one git raw h s third more shown :
  Py.split delimiter raw = h :: s :: third :: more ->
  has_nonspace raw = true ->
  git_show_stat git (Py.strip h) = Py.Ok shown ->
  parse_blocks git [raw; ""] [] = Py.Ok [commit_of h s third shown].
Proof.
  intros Hsplit Hraw Hshow. cbn [parse_blocks].
  rewrite (strip_nonempty raw Hraw), Hsplit.
  cbn [length Nat.ltb Nat.leb nth].
  rewrite (get_diff_stats_completed _ _ _ Hshow).
  rewrite scan_lines_parts. reflexivity.
Qed.

Lemma get_commits_one git from_ref to_ref raw h s third more shown :
  git_log git (from_ref +:+ ".." +:+ to_ref)
  = Py.Ok {| Py.returncode := 0; Py.stdout := log_of raw |} ->
  Py.contains sentinel raw = false ->
  Py.split delimiter raw = h :: s :: third :: more ->
  has_nonspace raw = true ->
  git_show_stat git (Py.strip h) = Py.Ok shown ->
  get_commits git from_ref to_ref = Py.Ok [commit_of h s third shown].
Proof.
  intros Hlog Hsent Hsplit Hraw Hshow.
  unfold get_commits, mbind, result_bind, Py.run. rewrite Hlog.
  cbn [Py.bind Py.returncode Py.stdout Z.eqb negb andb].
  rewrite split_log by exact Hsent.
  now apply (parse_one git raw h s third more shown).
Qed.

Lemma split_body_and_files fs : forall b,
  Forall (fun f => Py.contains nl f = false) fs ->
  Py.split nl (body_and_files b fs) = Py.split nl b ++ fs.
Proof.
  induction fs as [|f fs IH]; intros b Hfs; simpl.
  - now rewrite List.app_nil_r.
  - inversion Hfs as [|? ? Hf Hfs']; subst.
    rewrite IH by exact Hfs'. unfold Py.split, nl.
    change (String "010" "" +:+ f) with (String "010" f).
    rewrite split_char_app, <- List.app_assoc. f_equal.
    change (Py.split_go (String "010" "") 0 "" f) with (Py.split nl f).
    now rewrite split_none by now apply contains_clean.
Qed.

Lemma contains_body_and_files fs : forall b,
  Py.contains delimiter b = false ->
  Forall (fun f => Py.contains delimiter f = false) fs ->
  Py.contains delimiter (body_and_files b fs) = false.
Proof.
  induction fs as [|f fs IH]; intros b Hb Hfs; simpl; [exact Hb|].
  inversion Hfs as [|? ? Hf Hfs']; subst.
  apply IH; [|exact Hfs'].
  unfold nl, delimiter in *.
  change (String "010" "" +:+ f) with (String "010" f).
  rewrite contains_app_break by reflexivity.
  now rewrite Hb, Hf.
Qed.

Lemma parts_of_lines before fs :
  Forall (fun line => is_path_line line = false) before ->
  Forall (fun f => is_path_line f = true) fs ->
  body_part (before ++ fs) = before /\ files_part (before ++ fs) = fs.
Proof.
  intros Hb Hfs. induction Hb as [|line before Hline _ [IH1 IH2]]; simpl.
  - destruct Hfs as [|f fs Hf _]; simpl; [auto | now rewrite Hf].
  - rewrite Hline, IH1. auto.
Qed.

(** C2, amended. A log made of one block hash|||subject|||third field
    and the sentinel, whose third field is the body followed by one line
    per file, is parsed back to the trimmed subject (the subject itself
    when it has no white space around it), the trimmed body and the
    files in order, when: no body line starts with a known prefix, every
    file line does, the body holds no "|||" (the provisos of the claim);
    and also the hash and the subject hold no "|||" and do not end in
    '|', no file line holds a line feed or "|||", and the sentinel does
    not occur inside the block. *)
Theorem get_commits_round_trip git from_ref to_ref h s b fs shown :
  git_log git (from_ref +:+ ".." +:+ to_ref)
  = Py.Ok {| Py.returncode := 0;
             Py.stdout := log_of (raw_block h s (body_and_files b fs)) |} ->
  git_show_stat git (Py.strip h) = Py.Ok shown ->
  Forall (fun line => is_path_line line = false) (Py.split nl b) ->
  Forall (fun f => is_path_line f = true) fs ->
  Py.contains delimiter b = false ->
  delimited_by delimiter h = true ->
  delimited_by delimiter s = true ->
  Forall (fun f => Py.contains nl f = false) fs ->
  Forall (fun f => Py.contains delimiter f = false) fs ->
  Py.contains sentinel (raw_block h s (body_and_files b fs)) = false ->
  get_commits git from_ref to_ref
  = Py.Ok [ {| hash := Py.strip h;
               subject := Py.strip s;
               body := Py.strip b;
               files_changed := fs;
               stats := Py.strip (Py.stdout shown) |} ].
Proof.
  intros Hlog Hshow Hbody Hpaths Hb Hh Hs Hnl Hdelim Hsent.
  rewrite (get_commits_one git from_ref to_ref _ h s (body_and_files b fs)
             [] shown Hlog Hsent); [| |apply raw_block_nonspace|exact Hshow].
  - unfold commit_of. rewrite split_body_and_files by exact Hnl.
    destruct (parts_of_lines _ _ Hbody Hpaths) as [-> ->].
    rewrite join_split_nl, filter_path_lines by exact Hpaths.
    reflexivity.
  - apply split_block; auto using contains_body_and_files.
Qed.

Lemma get_commits_round_trip_witness :
  get_commits
    (constant_git
       (log_of (raw_block "abc123" "fix parser"
                  (body_and_files ("Line one" +:+ nl +:+ nl +:+ "Line two ")
                                  ["src/a.rs"; "docs/b.md"])))
       (Py.Ok {| Py.returncode := 0; Py.stdout := " 2 files changed" |}))
    "v0.1.135" "HEAD"
  = Py.Ok [ {| hash := "abc123";
               subject := "fix parser";
               body := "Line one" +:+ nl +:+ nl +:+ "Line two";
               files_changed := ["src/a.rs"; "docs/b.md"];
               stats := "2 files changed" |} ].
Proof.
  apply (get_commits_round_trip
           (constant_git
              (log_of (raw_block "abc123" "fix parser"
                         (body_and_files
                            ("Line one" +:+ nl +:+ nl +:+ "Line two ")
                            ["src/a.rs"; "docs/b.md"])))
              (Py.Ok {| Py.returncode := 0;
                        Py.stdout := " 2 files changed" |}))
           "v0.1.135" "HEAD" "abc123" "fix parser"
           ("Line one" +:+ nl +:+ nl +:+ "Line two ")
           ["src/a.rs"; "docs/b.md"]
           {| Py.returncode := 0; Py.stdout := " 2 files changed" |});
    try reflexivity; vm_compute; repeat constructor.
Defined.

(** C2 as stated fails: white space around the subject is not
    recovered, the provisos on body and files being met. *)
Lemma round_trip_trims_subject :
  Forall (fun line => is_path_line line = false) (Py.split nl "details")
  /\ Forall (fun f => is_path_line f = true) ["src/a.rs"]
  /\ Py.contains delimiter "details" = false
  /\ get_commits
       (constant_git
          (log_of (raw_block "abc123" " fix parser"
                     (body_and_files "details" ["src/a.rs"])))
          (Py.Ok {| Py.returncode := 0; Py.stdout := "" |}))
       "v0.1.135" "HEAD"
     = Py.Ok [ {| hash := "abc123";
                  subject := "fix parser";
                  body := "details";
                  files_changed := ["src/a.rs"];
                  stats := "" |} ]
  /\ get_commits
       (constant_git
          (log_of (raw_block "abc123" " fix parser"
                     (body_and_files "details" ["src/a.rs"])))
          (Py.Ok {| Py.returncode := 0; Py.stdout := "" |}))
       "v0.1.135" "HEAD"
     <> Py.Ok [ {| hash := "abc123";
                   subject := " fix parser";
                   body := "details";
                   files_changed := ["src/a.rs"];
                   stats := "" |} ].
Proof.
  split; [vm_compute; repeat constructor|].
  split; [vm_compute; repeat constructor|].
  split; [reflexivity|].
  split; [reflexivity|].
  vm_compute. intros [=].
Qed.

(** With "|||" inside the subject the block has a fourth field: the
    subject is cut short, the rest of it is taken for the body and the
    file list is lost. *)
Lemma delimiter_in_subject :
  get_commits
    (constant_git
       (log_of (raw_block "abc123" "use ||| as separator"
                  (body_and_files "details" ["src/a.rs"])))
       (Py.Ok {| Py.returncode := 0; Py.stdout := "" |}))
    "v0.1.135" "HEAD"
  = Py.Ok [ {| hash := "abc123";
               subject := "use";
               body := "as separator";
               files_changed := [];
               stats := "" |} ].
Proof. reflexivity. Qed.

(** C10. When the third field of a block holds "|||", the block is
    split at every occurrence and only the text [x] before the first one
    is read as body and files: whatever the text [y] after it, the record
    built is the one of the block whose third field is [x]. *)
Theorem body_cut_at_delimiter git from_ref to_ref h s third shown :
  git_log git (from_ref +:+ ".." +:+ to_ref)
  = Py.Ok {| Py.returncode := 0;
             Py.stdout := log_of (raw_block h s third) |} ->
  git_show_stat git (Py.strip h) = Py.Ok shown ->
  delimited_by delimiter h = true ->
  delimited_by delimiter s = true ->
  Py.contains sentinel (raw_block h s third) = false ->
  Py.contains delimiter third = true ->
  exists x y,
    third = x +:+ delimiter +:+ y
    /\ delimited_by delimiter x = true
    /\ Py.split delimiter (raw_block h s third)
       = h :: s :: x :: Py.split delimiter y
    /\ get_commits git from_ref to_ref = Py.Ok [commit_of h s x shown].
Proof.
  intros Hlog Hshow Hh Hs Hsent Hthird.
  destruct (first_occurrence delimiter third Hthird) as (x & y & -> & Hx).
  pose proof (split_block_more h s x y Hh Hs Hx) as Hsplit.
  exists x, y. repeat split; auto.
  apply (get_commits_one git from_ref to_ref _ h s x _ shown
           Hlog Hsent Hsplit); [apply raw_block_nonspace | exact Hshow].
Qed.

Lemma body_cut_at_delimiter_witness :
  exists x y,
    "first part||| second part" = x +:+ delimiter +:+ y
    /\ delimited_by delimiter x = true
    /\ Py.split delimiter
         (raw_block "abc123" "fix" "first part||| second part")
       = "abc123" :: "fix" :: x :: Py.split delimiter y
    /\ get_commits
         (constant_git
            (log_of (raw_block "abc123" "fix" "first part||| second part"))
            (Py.Ok {| Py.returncode := 0; Py.stdout := "" |}))
         "v0.1.135" "HEAD"
       = Py.Ok [commit_of "abc123" "fix" x
                  {| Py.returncode := 0; Py.stdout := "" |}].
Proof.
  apply (body_cut_at_delimiter
           (constant_git
              (log_of (raw_block "abc123" "fix" "first part||| second part"))
              (Py.Ok {| Py.returncode := 0; Py.stdout := "" |}))
           "v0.1.135" "HEAD" "abc123" "fix" "first part||| second part"
           {| Py.returncode := 0; Py.stdout := "" |});
    reflexivity.
Defined.

(** The same on a block whose body holds the delimiter before the file
    list: the second part of the body and the files are dropped. *)
Example body_and_files_after_delimiter_dropped :
  get_commits
    (constant_git
       (log_of (raw_block "abc123" "fix"
                  (body_and_files "first part||| second part"
                                  ["src/a.rs"; "docs/b.md"])))
       (Py.Ok {| Py.returncode := 0; Py.stdout := "" |}))
    "v0.1.135" "HEAD"
  = Py.Ok [ {| hash := "abc123";
               subject := "fix";
               body := "first part";
               files_changed := [];
               stats := "" |} ].
Proof. reflexivity. Qed.

(** The block loop raises only if a statistics query does. *)
Lemma parse_blocks_completes git raw_commits :
  (forall commit_hash,
      exists shown, git_show_stat git commit_hash = Py.Ok shown) ->
  forall commits,
    exists result, parse_blocks git raw_commits commits = Py.Ok result.
Proof.
  intros Hshow.
  induction raw_commits as [|raw rest IH]; intros commits; cbn [parse_blocks].
  - now exists commits.
  - destruct (is_empty (Py.strip raw)); [apply IH|].
    destruct (length (Py.split delimiter raw) <? 3); [apply IH|].
    destruct (Hshow (Py.strip (nth 0 (Py.split delimiter raw) "")))
      as [shown Hs].
    rewrite (get_diff_stats_completed _ _ _ Hs). apply IH.
Qed.

(** C9, amended. Whatever the exit status of the statistics query, the
    fetcher raises nothing and returns what the query wrote to standard
    output, trimmed: the empty string when it wrote nothing or only white
    space.  So a query that ends with a failure status never stops the
    parse of the log. *)
Theorem diff_stats_ignore_exit_status :
  (forall git commit_hash shown,
      git_show_stat git commit_hash = Py.Ok shown ->
      _get_diff_stats git commit_hash = Py.Ok (Py.strip (Py.stdout shown)))
  /\ (forall git commit_hash shown,
         git_show_stat git commit_hash = Py.Ok shown ->
         has_nonspace (Py.stdout shown) = false ->
         _get_diff_stats git commit_hash = Py.Ok "")
  /\ (forall git raw_commits commits,
         (forall commit_hash,
             exists shown, git_show_stat git commit_hash = Py.Ok shown) ->
         exists result, parse_blocks git raw_commits commits = Py.Ok result).
Proof.
  split; [exact get_diff_stats_completed|]. split.
  - intros git commit_hash shown Hshow Hblank.
    rewrite (get_diff_stats_completed _ _ _ Hshow).
    now rewrite strip_blank.
  - intros git raw_commits commits Hshow.
    now apply parse_blocks_completes.
Qed.

Lemma diff_stats_ignore_exit_status_witness :
  _get_diff_stats
    (constant_git ""
       (Py.Ok {| Py.returncode := 128; Py.stdout := " " +:+ nl |}))
    "abc123"
  = Py.Ok "".
Proof.
  apply (proj1 (proj2 diff_stats_ignore_exit_status)
           (constant_git ""
              (Py.Ok {| Py.returncode := 128; Py.stdout := " " +:+ nl |}))
           "abc123"
           {| Py.returncode := 128; Py.stdout := " " +:+ nl |});
    reflexivity.
Defined.

(** C9 as stated fails: a query that ends with status 128 after writing
    to standard output makes the fetcher return that output, not the
    empty string; and a query that cannot be started makes it raise. *)
Lemma diff_stats_of_failed_query :
  _get_diff_stats
    (constant_git ""
       (Py.Ok {| Py.returncode := 128; Py.stdout := " a.rs | 2 +-" |}))
    "abc123"
  = Py.Ok "a.rs | 2 +-"
  /\ _get_diff_stats (constant_git "" (Py.Raise Py.OSError)) "abc123"
     = Py.Raise Py.OSError.
Proof. split; reflexivity. Qed.

End ParserFacts.

(** ** The template generator *)

Section Template.

Import Enhancer.

Lemma slice_to_prefix n : forall s, exists r, s = Py.slice_to n s +:+ r.
Proof.
  unfold Py.slice_to.
  induction n as [|n IH]; intros s.
  - exists s. now destruct s.
  - destruct s as [|c s]; [now exists ""|].
    destruct (IH s) as [r Hr]. exists r. simpl. now rewrite <- Hr.
Qed.

Lemma slice_to_length n : forall s, String.length (Py.slice_to n s) <= n.
Proof.
  unfold Py.slice_to.
  induction n as [|n IH]; intros s.
  - destruct s; simpl; lia.
  - destruct s as [|c s]; simpl; [lia|]. specialize (IH s). lia.
Qed.

Lemma slice_to_app_long n : forall a b,
  n <= String.length a -> Py.slice_to n (a +:+ b) = Py.slice_to n a.
Proof.
  unfold Py.slice_to.
  induction n as [|n IH]; intros a b Hn.
  - now destruct a, b.
  - destruct a as [|c a]; simpl in Hn; [lia|].
    simpl. rewrite IH by lia. reflexivity.
Qed.

(** The first 500 characters of the context are those of the static
    text, with or without a README. *)
Lemma context_prefix_static readme :
  Py.slice_to 500 (_load_project_context readme)
  = Py.slice_to 500 static_context.
Proof.
  destruct readme as [content|]; [|reflexivity].
  unfold _load_project_context. apply slice_to_app_long.
  vm_compute. repeat constructor.
Qed.

Lemma embedded_prefix x r : embedded x (x +:+ r).
Proof. exists "", r. reflexivity. Qed.

Lemma embedded_refl x : embedded x x.
Proof. exists "", "". simpl. now rewrite str_app_nil_r. Qed.

Lemma embedded_app_r x a t : embedded x t -> embedded x (a +:+ t).
Proof.
  intros (before & after & ->). exists (a +:+ before), after.
  now rewrite str_app_assoc.
Qed.

Ltac find_embedded :=
  first [ apply embedded_prefix
        | apply embedded_refl
        | apply embedded_app_r; find_embedded ].

(** C8. The template is a function of the record and of the context, and
    of no more than the subject, the first 10 changed files, the first
    500 characters of the statistics and the first 500 characters of the
    context, which are those of the static project text: records and
    contexts that agree on these give the same template.  The template
    holds the subject, the list of the first 10 files in order, and these
    two prefixes. *)
Theorem enhance_commit_deterministic :
  (forall context1 context2 commit1 commit2,
      subject commit1 = subject commit2 ->
      firstn 10 (files_changed commit1) = firstn 10 (files_changed commit2) ->
      Py.slice_to 500 (stats commit1) = Py.slice_to 500 (stats commit2) ->
      Py.slice_to 500 context1 = Py.slice_to 500 context2 ->
      enhance_commit context1 commit1 = enhance_commit context2 commit2)
  /\ (forall context commit,
         exists out,
           enhance_commit context commit = Some out
           /\ embedded (subject commit) out
           /\ embedded (file_list (firstn 10 (files_changed commit))) out
           /\ embedded (Py.slice_to 500 (stats commit)) out
           /\ embedded (Py.slice_to 500 context) out
           /\ embedded instructions out
           /\ embedded examples out)
  /\ (forall s,
         String.length (Py.slice_to 500 s) <= 500
         /\ exists rest, s = Py.slice_to 500 s +:+ rest)
  /\ (forall files : list string,
         length (firstn 10 files) <= 10
         /\ exists rest, files = firstn 10 files ++ rest)
  /\ (forall readme,
         Py.slice_to 500 (_load_project_context readme)
         = Py.slice_to 500 static_context).
Proof.
  split; [|split; [|split; [|split]]].
  - intros context1 context2 commit1 commit2 Hs Hf Hst Hc.
    unfold enhance_commit. now rewrite Hs, Hf, Hst, Hc.
  - intros context commit. eexists. split; [reflexivity|].
    unfold file_list. repeat split; find_embedded.
  - intros s. split; [apply slice_to_length | apply slice_to_prefix].
  - intros files. split; [apply firstn_le_length|].
    exists (skipn 10 files). symmetry. apply firstn_skipn.
  - apply context_prefix_static.
Qed.

End Template.

(** ** The regression comparator *)

Section ComparatorFacts.

Import Perf.

Variable float_of_string : string -> option spec_float.

(** C6. Without a baseline file, or with one that cannot be read or
    parsed, the comparator returns 0 whatever the report holds, and
    whether or not the report can be read. *)
Theorem no_baseline_skips :
  forall report,
    check_regression float_of_string Missing report
    = ([NoBaselineFound], Py.Ok 0%Z)
    /\ check_regression float_of_string Unloadable report
       = ([ErrorLoadingBaseline], Py.Ok 0%Z)
    /\ exit_code (check_regression float_of_string Missing report) = 0%Z
    /\ exit_code (check_regression float_of_string Unloadable report) = 0%Z.
Proof. intros report. repeat split. Qed.

Lemma check_loaded baseline report current_search_ms :
  read_current float_of_string report = Py.Ok (Some current_search_ms) ->
  check_regression float_of_string (Loaded baseline) report
  = match get_search_ms baseline with
    | Py.Raise e => ([], Py.Raise e)
    | Py.Ok baseline_search_ms =>
        if match baseline_search_ms with PyNone => true | _ => false end
           || eq_zero baseline_search_ms
        then ([InvalidBaseline], Py.Ok 0%Z)
        else
          let out := [BaselineSearch baseline_search_ms;
                      CurrentSearch current_search_ms] in
          match as_float baseline_search_ms with
          | Py.Raise e => (out, Py.Raise e)
          | Py.Ok b =>
              if flt (fmul b threshold) current_search_ms then
                if is_zero b then (out, Py.Raise Py.ZeroDivisionError)
                else
                  (out ++ [RegressionDetected;
                           SearchTimeIncreased
                             (percent_increase current_search_ms b)],
                   Py.Ok 1%Z)
              else (out ++ [CheckPassed], Py.Ok 0%Z)
          end
    end.
Proof. intros H. unfold check_regression. now rewrite H. Qed.

(** C7. When the baseline is loaded and the report gives a measurement,
    a baseline without [search_ms], or whose [search_ms] is null or the
    number zero, makes the comparator return 0: the gate is off. *)
Theorem invalid_baseline_skips (d : gmap string pyval) report current :
  read_current float_of_string report = Py.Ok (Some current) ->
  d !! "search_ms" = None
  \/ d !! "search_ms" = Some PyNone
  \/ d !! "search_ms" = Some (PyInt 0)
  \/ (exists sign, d !! "search_ms" = Some (PyFloat (S754_zero sign))) ->
  check_regression float_of_string (Loaded (Dict d)) report
  = ([InvalidBaseline], Py.Ok 0%Z)
  /\ exit_code (check_regression float_of_string (Loaded (Dict d)) report)
     = 0%Z.
Proof.
  intros Hcur H. rewrite (check_loaded _ _ _ Hcur). unfold get_search_ms.
  destruct H as [-> | [-> | [-> | [sign ->]]]]; split; reflexivity.
Qed.



Lemma contains_inv sub : forall s,
  Py.contains sub s = true -> exists u v, s = u +:+ sub +:+ v.
Proof.
  induction s as [|c s IH]; cbn [Py.contains]; rewrite orb_true_iff.
  - intros [H|H]; [|discriminate].
    apply prefix_inv in H as [r ->]. now exists "", r.
  - intros [H|H].
    + apply prefix_inv in H as [r ->]. now exists "", r.
    + destruct (IH H) as (u & v & ->). now exists (String c u), v.
Qed.

(** A line with the row marker has a third cell: [parts[2]] exists. *)
Lemma marker_line_has_cell line :
  Py.contains "| search |" line = true ->
  exists cell, nth_error (Py.split "|" line) 2 = Some cell.
Proof.
  intros H. apply contains_inv in H as (u & v & ->).
  unfold Py.split.
  change ("| search |" +:+ v) with (String "|" (" search " +:+ String "|" v)).
  rewrite !split_char_app.
  pose proof (split_go_nonempty "|" u 0 "") as H1.
  pose proof (split_go_nonempty "|" " search " 0 "") as H2.
  pose proof (split_go_nonempty "|" v 0 "") as H3.
  destruct (Py.split_go "|" 0 "" u) as [|a1 l1]; [congruence|].
  destruct (Py.split_go "|" 0 "" " search ") as [|a2 l2]; [congruence|].
  destruct (Py.split_go "|" 0 "" v) as [|a3 l3]; [congruence|].
  destruct (nth_error ((a1 :: l1) ++ (a2 :: l2) ++ a3 :: l3) 2) eqn:E;
    [eauto|].
  apply nth_error_None in E. rewrite !List.length_app in E. simpl in E. lia.
Qed.

Lemma find_search_skip before rest :
  Forall (fun line => Py.contains "| search |" line = false) before ->
  find_search float_of_string (before ++ rest)
  = find_search float_of_string rest.
Proof.
  induction 1 as [|line before Hline _ IH]; [reflexivity|].
  cbn [app find_search]. now rewrite Hline.
Qed.

(** C5. With a loaded baseline, a report that has no line holding
    "| search |" makes the comparator return 1; and so does a report
    whose first such line has a third cell that, trimmed and without
    "ms", is not a number.  Such a line always has a third cell. *)
Theorem malformed_report_fails :
  (forall baseline s,
      Forall (fun line => Py.contains "| search |" line = false)
             (Py.readlines s) ->
      check_regression float_of_string (Loaded baseline) (Content s)
      = ([SearchNotFound], Py.Ok 1%Z)
      /\ exit_code
           (check_regression float_of_string (Loaded baseline) (Content s))
         = 1%Z)
  /\ (forall baseline s before line after,
         Py.readlines s = before ++ line :: after ->
         Forall (fun line => Py.contains "| search |" line = false) before ->
         Py.contains "| search |" line = true ->
         exists cell,
           nth_error (Py.split "|" line) 2 = Some cell
           /\ (float_of_string (Py.replace "ms" "" (Py.strip cell)) = None ->
               check_regression float_of_string (Loaded baseline) (Content s)
               = ([ErrorParsingReport Py.ValueError], Py.Ok 1%Z)
               /\ exit_code
                    (check_regression float_of_string (Loaded baseline)
                       (Content s))
                  = 1%Z)).
Proof.
  split.
  - intros baseline s Hnone. unfold exit_code, check_regression, read_current.
    rewrite <- (List.app_nil_r (Py.readlines s)).
    rewrite find_search_skip by exact Hnone. split; reflexivity.
  - intros baseline s before line after Hlines Hbefore Hline.
    destruct (marker_line_has_cell line Hline) as [cell Hcell].
    exists cell. split; [exact Hcell|]. intros Hparse.
    unfold exit_code, check_regression, read_current.
    rewrite Hlines, find_search_skip by exact Hbefore.
    cbn [find_search]. rewrite Hline, Hcell, Hparse. split; reflexivity.
Qed.

End ComparatorFacts.

(** ** The order of binary64 numbers

    The comparison of the program is the comparison of the exact
    values. *)

Section FloatOrder.

Import Perf.

#[local] Open Scope Z_scope.









End FloatOrder.

(** ** The comparator on the examples of the specification *)

Section ComparatorExamples.

Import Perf.

(** The literal [1.15] of the source is the binary64 nearest to 1.15. *)
Lemma threshold_literal : decimal_float "1.15" = Some threshold.
Proof. reflexivity. Qed.




End ComparatorExamples.

(** ** The statements at work on concrete inputs *)

Section Instances.

Import Enhancer Perf.

Lemma needs_enhancement_iff_witness :
  needs_enhancement
    {| hash := "abc123"; subject := "Release v0.1.136"; body := "";
       files_changed := ["Cargo.toml"]; stats := "" |}
  = false.
Proof.
  apply (proj2 (proj2 needs_enhancement_iff)
           {| hash := "abc123"; subject := "Release v0.1.136"; body := "";
              files_changed := ["Cargo.toml"]; stats := "" |}).
  left. exists "0.1.136". reflexivity.
Defined.

Lemma scan_transition_irrevocable_witness :
  in_files
    (fold_left scan_step ["not a path"; ""]
       {| in_files := true; body_lines := ["body"];
          file_lines := ["src/a.rs"] |})
  = true
  /\ body_lines
       (fold_left scan_step ["not a path"; ""]
          {| in_files := true; body_lines := ["body"];
             file_lines := ["src/a.rs"] |})
     = ["body"]
  /\ file_lines
       (fold_left scan_step ["not a path"; ""]
          {| in_files := true; body_lines := ["body"];
             file_lines := ["src/a.rs"] |})
     = ["src/a.rs"; "not a path"; ""].
Proof.
  apply (proj1 scan_transition_irrevocable
           {| in_files := true; body_lines := ["body"];
              file_lines := ["src/a.rs"] |}
           ["not a path"; ""]).
  reflexivity.
Defined.

Lemma malformed_report_fails_witness :
  check_regression decimal_float (baseline_of (PyInt 100))
    (Content report_without_search)
  = ([SearchNotFound], Py.Ok 1%Z)
  /\ exit_code
       (check_regression decimal_float (baseline_of (PyInt 100))
          (Content report_without_search))
     = 1%Z.
Proof.
  apply (proj1 (malformed_report_fails decimal_float)
           (Dict {[ "search_ms" := PyInt 100 ]}) report_without_search).
  vm_compute. repeat constructor.
Defined.

Lemma invalid_baseline_skips_witness :
  check_regression decimal_float
    (Loaded (Dict {[ "search_ms" := PyInt 0 ]}))
    (Content (report_with "110.00ms"))
  = ([InvalidBaseline], Py.Ok 0%Z)
  /\ exit_code
       (check_regression decimal_float
          (Loaded (Dict {[ "search_ms" := PyInt 0 ]}))
          (Content (report_with "110.00ms")))
     = 0%Z.
Proof.
  apply (invalid_baseline_skips decimal_float
           {[ "search_ms" := PyInt 0 ]} (Content (report_with "110.00ms"))
           (S754_finite false 7740561859543040 (-46))).
  - vm_compute. reflexivity.
  - right. right. left. reflexivity.
Defined.

Lemma enhance_commit_deterministic_witness :
  enhance_commit (_load_project_context None)
    {| hash := "abc123"; subject := "fix"; body := "";
       files_changed :=
         ["src/a"; "src/b"; "src/c"; "src/d"; "src/e"; "src/f"; "src/g";
          "src/h"; "src/i"; "src/j"; "src/k"];
       stats := " 11 files changed" |}
  = enhance_commit (_load_project_context (Some "# OMG"))
      {| hash := "def456"; subject := "fix"; body := "longer";
         files_changed :=
           ["src/a"; "src/b"; "src/c"; "src/d"; "src/e"; "src/f"; "src/g";
            "src/h"; "src/i"; "src/j"];
         stats := " 11 files changed" |}.
Proof.
  apply (proj1 enhance_commit_deterministic); reflexivity.
Defined.

End Instances.

(** * Further properties of the code *)

(** ** The block loop as a map over the well-formed blocks *)

Section BlockLoop.

Import Enhancer.

Lemma parse_blocks_step git raw rest commits :
  parse_blocks git (raw :: rest) commits
  = match fields_of raw with
    | None => parse_blocks git rest commits
    | Some (h, s, third) =>
        stats ← _get_diff_stats git (Py.strip h);
        parse_blocks git rest
          (commits ++ [ {| hash := Py.strip h;
                           subject := Py.strip s;
                           body :=
                             Py.strip (Py.join nl
                                (body_part (Py.split nl third)));
                           files_changed :=
                             List.filter
                               (fun f => negb (is_empty (Py.strip f)))
                               (files_part (Py.split nl third));
                           stats := stats |} ])
    end.
Proof.
  cbn [parse_blocks]. unfold fields_of.
  destruct (is_empty (Py.strip raw)); [reflexivity|].
  destruct (Py.split delimiter raw) as [|h [|s [|third more]]];
    try reflexivity.
  cbn [length Nat.ltb Nat.leb nth]. now rewrite scan_lines_parts.
Qed.

Lemma parse_blocks_map git shown raw_commits :
  (forall commit_hash,
      git_show_stat git commit_hash = Py.Ok (shown commit_hash)) ->
  forall commits,
    parse_blocks git raw_commits commits
    = Py.Ok (commits ++ map (record_of shown) (omap fields_of raw_commits)).
Proof.
  intros Hshow.
  induction raw_commits as [|raw rest IH]; intros commits.
  - cbn. now rewrite List.app_nil_r.
  - rewrite parse_blocks_step. cbn [omap list_omap].
    destruct (fields_of raw) as [[[h s] third]|]; [|apply IH].
    rewrite (get_diff_stats_completed _ _ _ (Hshow (Py.strip h))).
    cbn [mbind result_bind Py.bind]. rewrite IH.
    cbn [map record_of]. now rewrite <- List.app_assoc.
Qed.

Lemma get_commits_as_map git from_ref to_ref out shown :
  git_log git (from_ref +:+ ".." +:+ to_ref)
  = Py.Ok {| Py.returncode := 0; Py.stdout := out |} ->
  (forall commit_hash,
      git_show_stat git commit_hash = Py.Ok (shown commit_hash)) ->
  get_commits git from_ref to_ref
  = Py.Ok (map (record_of shown) (omap fields_of (Py.split sentinel out))).
Proof.
  intros Hlog Hshow.
  unfold get_commits, mbind, result_bind, Py.run. rewrite Hlog.
  cbn [Py.bind Py.returncode Py.stdout Z.eqb negb andb].
  now rewrite (parse_blocks_map git shown).
Qed.

(** When the log query succeeds and every statistics query runs, the
    parser returns one record per block that has something other than
    white space and at least three fields, in the order of the log; the
    other blocks are skipped. *)
Theorem get_commits_maps_blocks git from_ref to_ref out shown :
  git_log git (from_ref +:+ ".." +:+ to_ref)
  = Py.Ok {| Py.returncode := 0; Py.stdout := out |} ->
  (forall commit_hash,
      git_show_stat git commit_hash = Py.Ok (shown commit_hash)) ->
  get_commits git from_ref to_ref
  = Py.Ok (map (record_of shown) (omap fields_of (Py.split sentinel out))).
Proof. exact (get_commits_as_map git from_ref to_ref out shown). Qed.

End BlockLoop.

(** ** Logs of several blocks, logs without blocks *)

Section Logs.

Import Enhancer.

Lemma fields_of_raw_block h s third :
  clean_block (h, s, third) ->
  fields_of (raw_block h s third) = Some (h, s, third).
Proof.
  intros (Hh & Hs & Ht & _). unfold fields_of.
  rewrite strip_nonempty by apply raw_block_nonspace.
  now rewrite split_block.
Qed.

Lemma split_log_of_blocks blocks :
  Forall clean_block blocks ->
  Py.split sentinel (log_of_blocks blocks)
  = map (fun '(h, s, third) => raw_block h s third) blocks ++ [""].
Proof.
  induction 1 as [|[[h s] third] blocks Hclean _ IH]; [reflexivity|].
  cbn [log_of_blocks map app].
  pose proof (split_first "|" "||END_COMMIT" (raw_block h s third)
                (log_of_blocks blocks)) as Hs.
  change (String "|" "||END_COMMIT") with sentinel in Hs.
  rewrite Hs, IH; [reflexivity|].
  apply delimited_by_clean. unfold delimited_by.
  destruct Hclean as (_ & _ & _ & Hsent).
  now rewrite sentinel_clean.
Qed.

Lemma fields_of_blocks blocks :
  Forall clean_block blocks ->
  omap fields_of
    (map (fun '(h, s, third) => raw_block h s third) blocks ++ [""])
  = blocks.
Proof.
  induction 1 as [|[[h s] third] blocks Hclean _ IH]; [reflexivity|].
  cbn [map app omap list_omap].
  rewrite fields_of_raw_block by exact Hclean.
  cbn [omap list_omap] in IH. now rewrite IH.
Qed.

(** A log of any number of blocks, each one hash|||subject|||third field
    followed by the sentinel, gives the records of the blocks, one per
    block and in the order of the log, when in each block the hash and
    the subject hold no "|||" and do not end in '|', the third field
    holds no "|||" and the sentinel does not occur. *)
Theorem get_commits_of_blocks git from_ref to_ref blocks shown :
  git_log git (from_ref +:+ ".." +:+ to_ref)
  = Py.Ok {| Py.returncode := 0; Py.stdout := log_of_blocks blocks |} ->
  (forall commit_hash,
      git_show_stat git commit_hash = Py.Ok (shown commit_hash)) ->
  Forall clean_block blocks ->
  get_commits git from_ref to_ref = Py.Ok (map (record_of shown) blocks).
Proof.
  intros Hlog Hshow Hclean.
  rewrite (get_commits_as_map git from_ref to_ref _ shown Hlog Hshow).
  now rewrite split_log_of_blocks, fields_of_blocks.
Qed.

Lemma contains_longer p q : forall s,
  Py.contains (p +:+ q) s = true -> Py.contains p s = true.
Proof.
  assert (Hp : forall s, String.prefix (p +:+ q) s = true ->
                         String.prefix p s = true).
  { intros s H. apply prefix_inv in H as [r ->].
    rewrite str_app_assoc. apply prefix_app. }
  induction s as [|c s IH]; cbn [Py.contains]; rewrite !orb_true_iff.
  - intros [H|H]; [left; now apply Hp | discriminate].
  - intros [H|H]; [left; now apply Hp | right; now apply IH].
Qed.

Lemma no_delimiter_no_commits git from_ref to_ref out :
  git_log git (from_ref +:+ ".." +:+ to_ref)
  = Py.Ok {| Py.returncode := 0; Py.stdout := out |} ->
  Py.contains delimiter out = false ->
  get_commits git from_ref to_ref = Py.Ok [].
Proof.
  intros Hlog Hout.
  assert (Hsent : Py.contains sentinel out = false).
  { destruct (Py.contains sentinel out) eqn:E; [|reflexivity].
    apply (contains_longer delimiter "END_COMMIT") in E. congruence. }
  unfold get_commits, mbind, result_bind, Py.run. rewrite Hlog.
  cbn [Py.bind Py.returncode Py.stdout Z.eqb negb andb].
  rewrite split_none by now apply contains_clean.
  rewrite parse_blocks_step. unfold fields_of.
  destruct (is_empty (Py.strip out)); [reflexivity|].
  now rewrite split_none by now apply contains_clean.
Qed.

(** A log that holds no "|||" at all, the empty log first, gives no
    record, and no statistics query is made: the result does not depend
    on what such a query would answer. *)
Theorem get_commits_without_delimiter git from_ref to_ref out :
  git_log git (from_ref +:+ ".." +:+ to_ref)
  = Py.Ok {| Py.returncode := 0; Py.stdout := out |} ->
  Py.contains delimiter out = false ->
  get_commits git from_ref to_ref = Py.Ok [].
Proof. exact (no_delimiter_no_commits git from_ref to_ref out). Qed.

Lemma parse_blocks_broken_stats git e raw_commits :
  (forall commit_hash, git_show_stat git commit_hash = Py.Raise e) ->
  forall commits,
    parse_blocks git raw_commits commits
    = match omap fields_of raw_commits with
      | [] => Py.Ok commits
      | _ :: _ => Py.Raise e
      end.
Proof.
  intros Hshow.
  induction raw_commits as [|raw rest IH]; intros commits; [reflexivity|].
  rewrite parse_blocks_step. cbn [omap list_omap].
  destruct (fields_of raw) as [[[h s] third]|]; [|apply IH].
  unfold _get_diff_stats, mbind, result_bind, Py.run.
  now rewrite Hshow.
Qed.

(** A statistics tool that cannot be started is fatal as soon as the log
    holds one well-formed block: the parser raises the error of the
    first query and returns no partial list.  Only a log without any
    well-formed block still gives the empty list. *)
Theorem broken_stats_tool_is_fatal git from_ref to_ref out e :
  git_log git (from_ref +:+ ".." +:+ to_ref)
  = Py.Ok {| Py.returncode := 0; Py.stdout := out |} ->
  (forall commit_hash, git_show_stat git commit_hash = Py.Raise e) ->
  get_commits git from_ref to_ref
  = match omap fields_of (Py.split sentinel out) with
    | [] => Py.Ok []
    | _ :: _ => Py.Raise e
    end.
Proof.
  intros Hlog Hshow.
  unfold get_commits, mbind, result_bind, Py.run. rewrite Hlog.
  cbn [Py.bind Py.returncode Py.stdout Z.eqb negb andb].
  now apply parse_blocks_broken_stats.
Qed.

End Logs.

(** ** What every parsed record satisfies *)

Section TidyRecords.

Import Enhancer.

Lemma rstrip_cons c s :
  Py.rstrip (String c s)
  = match Py.rstrip s with
    | EmptyString =>
        if Py.isspace c then EmptyString else String c EmptyString
    | String d r => String c (String d r)
    end.
Proof. reflexivity. Qed.

Lemma rstrip_idem s : Py.rstrip (Py.rstrip s) = Py.rstrip s.
Proof.
  induction s as [|c s IH]; [reflexivity|].
  rewrite rstrip_cons. destruct (Py.rstrip s) as [|d r] eqn:E.
  - destruct (Py.isspace c) eqn:Ec; [reflexivity|].
    rewrite rstrip_cons. cbn [Py.rstrip]. now rewrite Ec.
  - rewrite rstrip_cons, IH. reflexivity.
Qed.

Lemma rstrip_head c t :
  Py.isspace c = false -> exists r, Py.rstrip (String c t) = String c r.
Proof.
  intros Ec. cbn [Py.rstrip]. rewrite Ec.
  destruct (Py.rstrip t); eauto.
Qed.

Lemma lstrip_shape s :
  Py.lstrip s = ""
  \/ exists c t, Py.lstrip s = String c t /\ Py.isspace c = false.
Proof.
  induction s as [|c s IH]; [now left|].
  cbn [Py.lstrip]. destruct (Py.isspace c) eqn:Ec; [exact IH|].
  right. now exists c, s.
Qed.

(** Trimming twice is trimming once. *)
Lemma strip_idem s : Py.strip (Py.strip s) = Py.strip s.
Proof.
  unfold Py.strip.
  destruct (lstrip_shape s) as [->|(c & t & -> & Ec)]; [reflexivity|].
  destruct (rstrip_head c t Ec) as [r Hr]. rewrite Hr.
  cbn [Py.lstrip]. rewrite Ec, <- Hr. apply rstrip_idem.
Qed.

Lemma nonblank_has_nonspace f :
  negb (is_empty (Py.strip f)) = true -> has_nonspace f = true.
Proof.
  destruct (has_nonspace f) eqn:E; [reflexivity|].
  now rewrite strip_blank.
Qed.

Lemma mem_char_app c a b : mem_char c (a +:+ b) = mem_char c a || mem_char c b.
Proof.
  induction a as [|d a IH]; simpl; [reflexivity|].
  now rewrite IH, orb_assoc.
Qed.

Lemma mem_char_contains c s :
  mem_char c s = false -> Py.contains (String c "") s = false.
Proof.
  induction s as [|d s IH]; [reflexivity|].
  cbn [mem_char Py.contains]. rewrite orb_false_iff. intros [Hd Hs].
  rewrite prefix_cons. apply Ascii.eqb_neq in Hd.
  destruct (ascii_dec c d); [congruence | now apply IH].
Qed.

(** The pieces of a split by one character do not hold it. *)
Lemma split_char_pieces c s : forall cur,
  mem_char c cur = false ->
  Forall (fun piece => mem_char c piece = false)
         (Py.split_go (String c "") 0 cur s).
Proof.
  induction s as [|d s IH]; intros cur Hcur; cbn [Py.split_go].
  - now constructor.
  - rewrite prefix_cons. destruct (ascii_dec c d) as [->|Hne].
    + rewrite prefix_nil. constructor; [exact Hcur | now apply IH].
    + apply IH. rewrite mem_char_app, Hcur. cbn.
      apply Ascii.eqb_neq in Hne. now rewrite Hne.
Qed.

Lemma files_part_sub (P : string -> Prop) lines :
  Forall P lines -> Forall P (files_part lines).
Proof.
  induction 1 as [|line rest Hline Hrest IH]; cbn [files_part];
    [constructor|].
  destruct (is_path_line line); [now constructor | exact IH].
Qed.

Lemma filter_sub (P : string -> Prop) keep l :
  Forall P l -> Forall P (List.filter keep l).
Proof.
  induction 1 as [|x l Hx _ IH]; cbn [List.filter]; [constructor|].
  destruct (keep x); [now constructor | exact IH].
Qed.

Lemma filter_kept keep (l : list string) :
  Forall (fun x => keep x = true) (List.filter keep l).
Proof.
  induction l as [|x l IH]; cbn [List.filter]; [constructor|].
  destruct (keep x) eqn:E; [now constructor | exact IH].
Qed.

Lemma tidy_commit_of h s third stats_text :
  tidy_record
    {| hash := Py.strip h;
       subject := Py.strip s;
       body := Py.strip (Py.join nl (body_part (Py.split nl third)));
       files_changed :=
         List.filter (fun f => negb (is_empty (Py.strip f)))
                     (files_part (Py.split nl third));
       stats := Py.strip stats_text |}.
Proof.
  unfold tidy_record. cbn [hash subject body stats files_changed].
  rewrite !strip_idem. repeat split.
  - apply Forall_and. split.
    + eapply List.Forall_impl; [|apply filter_kept].
      intros f. apply nonblank_has_nonspace.
    + apply filter_sub, files_part_sub.
      eapply List.Forall_impl;
        [|apply (split_char_pieces "010" third ""); reflexivity].
      intros f. apply mem_char_contains.
  - pose proof (files_part_head (Py.split nl third)) as Hhead.
    destruct (files_part (Py.split nl third)) as [|f rest]; [exact I|].
    cbn [List.filter].
    rewrite strip_nonempty by now apply path_line_nonspace.
    exact Hhead.
Qed.

Lemma parse_blocks_tidy git raw_commits : forall commits result,
  Forall tidy_record commits ->
  parse_blocks git raw_commits commits = Py.Ok result ->
  Forall tidy_record result.
Proof.
  induction raw_commits as [|raw rest IH]; intros commits result Hc H.
  - cbn in H. now injection H as <-.
  - rewrite parse_blocks_step in H.
    destruct (fields_of raw) as [[[h s] third]|]; [|now apply (IH commits)].
    unfold _get_diff_stats, mbind, result_bind in H.
    destruct (Py.run false (git_show_stat git (Py.strip h))) as [p|e];
      [|discriminate H].
    cbn [Py.bind] in H. apply IH in H; [exact H|].
    apply Forall_app. split; [exact Hc|].
    constructor; [apply tidy_commit_of | constructor].
Qed.

(** Every record that the parser returns is tidy: hash, subject, body and
    statistics have no white space around them; each file entry is one
    line with something other than white space on it; and when there are
    file entries the first one starts with a known prefix. *)
Theorem get_commits_tidy git from_ref to_ref commits :
  get_commits git from_ref to_ref = Py.Ok commits ->
  Forall tidy_record commits.
Proof.
  unfold get_commits, mbind, result_bind. intros H.
  destruct (Py.run true (git_log git (from_ref +:+ ".." +:+ to_ref)))
    as [p|e]; [|discriminate H].
  cbn [Py.bind] in H.
  apply (parse_blocks_tidy git _ [] commits (List.Forall_nil _) H).
Qed.

End TidyRecords.

(** ** More on the classifier *)

Section ClassifierMore.

Import Enhancer.

Lemma lower_app a b : Py.lower (a +:+ b) = Py.lower a +:+ Py.lower b.
Proof.
  induction a as [|c a IH]; simpl; [reflexivity | now rewrite IH].
Qed.

Lemma lower_length s : String.length (Py.lower s) = String.length s.
Proof.
  induction s as [|c s IH]; simpl; [reflexivity | now rewrite IH].
Qed.

(** A subject of a release commit never has the shape of a terse one. *)
Lemma release_not_terse subject :
  Py.startswith "Release v" subject
  || Py.startswith "Bump version" subject = true ->
  existsb
    (fun pattern =>
       String.eqb (Py.lower subject) pattern
       || Py.startswith (pattern +:+ ":") (Py.lower subject)
       || Py.startswith (pattern +:+ "(") (Py.lower subject))
    terse_patterns = false.
Proof.
  unfold Py.startswith. rewrite orb_true_iff.
  intros [H|H]; apply prefix_inv in H as [r ->]; rewrite lower_app;
    vm_compute; reflexivity.
Qed.

Lemma needs_enhancement_short commit :
  needs_enhancement commit
  = negb (200 <? Py.len (body commit))
    && existsb
         (fun pattern =>
            String.eqb (Py.lower (subject commit)) pattern
            || Py.startswith (pattern +:+ ":") (Py.lower (subject commit))
            || Py.startswith (pattern +:+ "(") (Py.lower (subject commit)))
         terse_patterns
    && (Py.len (subject commit) <? 60).
Proof.
  rewrite needs_enhancement_eq.
  destruct (Py.startswith "Release v" (subject commit)
            || Py.startswith "Bump version" (subject commit)) eqn:E.
  - rewrite (release_not_terse _ E).
    now rewrite !andb_false_r, andb_false_l.
  - apply orb_false_iff in E as [-> ->]. cbn [negb].
    now rewrite !andb_true_r.
Qed.

(** The test on release commits changes nothing: no subject that starts
    with "Release v" or "Bump version" has the shape of a terse one, so
    the classifier answers as if the test were not there. *)
Theorem release_test_is_redundant commit :
  needs_enhancement commit = true
  <-> String.length (body commit) <= 200
      /\ terse_shape (Py.lower (subject commit))
      /\ String.length (subject commit) < 60.
Proof.
  rewrite needs_enhancement_short.
  rewrite !andb_true_iff, negb_true_iff, terse_shape_existsb.
  unfold Py.len. rewrite Nat.ltb_ge, Nat.ltb_lt. tauto.
Qed.

(** The classifier does not see letter case, nor anything of the body but
    its length: commits whose subjects are equal in lower case and whose
    bodies are equally long are classified alike. *)
Theorem classification_ignores_case commit1 commit2 :
  Py.lower (subject commit1) = Py.lower (subject commit2) ->
  String.length (body commit1) = String.length (body commit2) ->
  needs_enhancement commit1 = needs_enhancement commit2.
Proof.
  intros Hs Hb. rewrite !needs_enhancement_short. unfold Py.len.
  rewrite Hs, Hb.
  now rewrite <- (lower_length (subject commit1)), Hs, lower_length.
Qed.

Lemma classification_ignores_case_witness :
  needs_enhancement
    {| hash := "abc123"; subject := "FIX(CLI): Sudo"; body := "x";
       files_changed := []; stats := "" |}
  = needs_enhancement
      {| hash := "def456"; subject := "fix(cli): sudo"; body := "y";
         files_changed := ["src/a.rs"]; stats := "1 file" |}.
Proof.
  apply classification_ignores_case; reflexivity.
Defined.

End ClassifierMore.

(** ** The preview *)

Section PreviewFacts.

Import Enhancer.

Lemma slice_to_exact n : forall s,
  n <= String.length s -> String.length (Py.slice_to n s) = n.
Proof.
  unfold Py.slice_to.
  induction n as [|n IH]; intros s Hn.
  - now destruct s.
  - destruct s as [|c s]; simpl in Hn; [lia|].
    simpl. rewrite IH by lia. reflexivity.
Qed.

(** The static parts of the template alone are longer than 500
    characters. *)
Lemma template_long context commit :
  exists template,
    enhance_commit context commit = Some template
    /\ 500 < String.length template.
Proof.
  eexists. split; [reflexivity|].
  rewrite !str_length_app.
  change (String.length instructions) with 411.
  change (String.length examples) with 289.
  lia.
Qed.

Lemma template_cut context commit :
  (if 500 <? Py.len (template_of context commit)
   then Py.slice_to 500 (template_of context commit) +:+ "..."
   else template_of context commit)
  = Py.slice_to 500 (template_of context commit) +:+ "..."
  /\ String.length (Py.slice_to 500 (template_of context commit) +:+ "...")
     = 503.
Proof.
  unfold template_of.
  destruct (template_long context commit) as (template & -> & Hlong).
  split.
  - unfold Py.len. now apply Nat.ltb_lt in Hlong as ->.
  - rewrite str_length_app, slice_to_exact by lia. reflexivity.
Qed.

(** The template is never printed whole: the preview shows its first 500
    characters and three dots, 503 characters in all, for every commit
    and every context. *)
Theorem preview_text_is_cut context commit :
  (if 500 <? Py.len (template_of context commit)
   then Py.slice_to 500 (template_of context commit) +:+ "..."
   else template_of context commit)
  = Py.slice_to 500 (template_of context commit) +:+ "..."
  /\ String.length (Py.slice_to 500 (template_of context commit) +:+ "...")
     = 503.
Proof. exact (template_cut context commit). Qed.

Lemma preview_loop_spec context commits : forall enhanced_count out,
  preview_loop context commits enhanced_count out
  = (out ++ flat_map (preview_entry context)
              (List.filter needs_enhancement commits),
     Py.Ok (enhanced_count
            + length (List.filter needs_enhancement commits))).
Proof.
  induction commits as [|commit rest IH]; intros enhanced_count out.
  - cbn. now rewrite List.app_nil_r, Nat.add_0_r.
  - cbn [preview_loop List.filter].
    destruct (needs_enhancement commit); [|apply IH].
    pose proof (template_cut context commit) as [Hcut _].
    unfold template_of in Hcut.
    destruct (template_long context commit) as (template & Ht & _).
    rewrite Ht in Hcut |- *. cbv zeta. rewrite Hcut, IH.
    cbn [flat_map length]. unfold preview_entry at 2, template_of.
    rewrite Ht, <- !List.app_assoc, Nat.add_succ_r. reflexivity.
Qed.

Lemma last_of_nonempty {A} (l : list A) :
  l <> [] -> exists x, last l = Some x.
Proof.
  induction l as [|x [|y l] IH]; intros H; [congruence | now exists x |].
  destruct IH as [z Hz]; [discriminate|]. now exists z.
Qed.

Lemma slice_of_empty {A} limit : @Py.list_slice_to A limit [] = [].
Proof.
  unfold Py.list_slice_to. destruct (0 <=? limit)%Z; apply firstn_nil.
Qed.

Lemma slice_length {A} limit (l : list A) :
  length (Py.list_slice_to limit l) <= length l
  /\ ((0 <= limit)%Z ->
      length (Py.list_slice_to limit l) <= Z.to_nat limit).
Proof.
  unfold Py.list_slice_to.
  destruct (Z.leb_spec 0 limit); rewrite List.length_firstn; lia.
Qed.

Lemma filter_length_le {A} keep (l : list A) :
  length (List.filter keep l) <= length l.
Proof.
  induction l as [|x l IH]; cbn [List.filter]; [lia|].
  destruct (keep x); simpl; lia.
Qed.

Lemma preview_enhancements_eq context commits limit :
  preview_enhancements context commits limit
  = ([PreviewHeader]
       ++ flat_map (preview_entry context) (previewed commits limit)
       ++ [Rule; FoundLine (length (previewed commits limit))]
       ++ match previewed commits limit, last commits with
          | _ :: _, Some oldest =>
              [TipHeading; TipUseTemplates; TipApply (hash oldest);
               TipReword]
          | _, _ => []
          end,
     Py.Ok tt).
Proof.
  unfold preview_enhancements, previewed.
  rewrite preview_loop_spec. cbn [Nat.add].
  destruct (List.filter needs_enhancement (Py.list_slice_to limit commits))
    as [|first others] eqn:E.
  - cbn. reflexivity.
  - cbn [length Nat.ltb Nat.leb]. unfold Py.last_item.
    destruct (last_of_nonempty commits) as [oldest ->].
    { intros ->. now rewrite slice_of_empty in E. }
    now rewrite <- !List.app_assoc.
Qed.

(** The preview never raises, an empty list of commits included.  It
    prints one entry per candidate among [commits[:limit]], in order, then
    their number; and, when there is a candidate, the tip, which names
    the last commit of the whole list, not of the slice.  The number of
    entries is at most the number of commits, and at most [limit] when
    [limit] is not negative. *)
Theorem preview_enhancements_spec context commits limit :
  preview_enhancements context commits limit
  = ([PreviewHeader]
       ++ flat_map (preview_entry context) (previewed commits limit)
       ++ [Rule; FoundLine (length (previewed commits limit))]
       ++ match previewed commits limit, last commits with
          | _ :: _, Some oldest =>
              [TipHeading; TipUseTemplates; TipApply (hash oldest);
               TipReword]
          | _, _ => []
          end,
     Py.Ok tt)
  /\ length (previewed commits limit) <= length commits
  /\ ((0 <= limit)%Z -> length (previewed commits limit) <= Z.to_nat limit).
Proof.
  split; [apply preview_enhancements_eq|].
  unfold previewed.
  pose proof (filter_length_le needs_enhancement
                (Py.list_slice_to limit commits)).
  pose proof (slice_length limit commits). lia.
Qed.

End PreviewFacts.

(** ** The command *)

Section MainFacts.

Import Enhancer.

Lemma preview_returns context commits limit :
  exists printed,
    preview_enhancements context commits limit = (printed, Py.Ok tt).
Proof.
  rewrite preview_enhancements_eq. eauto.
Qed.

Lemma main_parsed args describe readme git start context :
  start_ref args describe = Py.Ok (Some start) ->
  CommitEnhancer readme = Py.Ok context ->
  main (Parsed args) describe readme git
  = match get_commits git start (to_ref args) with
    | Py.Raise (Py.CalledProcessError returncode) =>
        ([Analyzing start (to_ref args);
          GitCommandFailed (Py.CalledProcessError returncode)], 1%Z)
    | Py.Raise e =>
        ([Analyzing start (to_ref args); ErrorLine e; Traceback e], 1%Z)
    | Py.Ok commits =>
        ([Analyzing start (to_ref args); FoundCommits (length commits)]
           ++ map Preview
                (fst (preview_enhancements context commits (limit args))),
         0%Z)
    end.
Proof.
  intros Hstart Hctx. unfold main. rewrite Hstart, Hctx.
  destruct (get_commits git start (to_ref args)) as [commits|e].
  - destruct (preview_returns context commits (limit args))
      as [printed ->]. reflexivity.
  - now destruct e.
Qed.

(** The command ends with status 0, 1 or 2.  With 2 exactly on a usage
    error of the command line.  With 0 exactly when help was asked for,
    or when the options were parsed, a start of range is there (given, or
    found as the last tag), README.md is absent or can be read, and the
    parser returns the commits of the range: no failure of the preview
    can turn a parsed range into status 1. *)
Theorem main_exit_status cli describe readme git :
  (snd (main cli describe readme git) = 0%Z
   \/ snd (main cli describe readme git) = 1%Z
   \/ snd (main cli describe readme git) = 2%Z)
  /\ (snd (main cli describe readme git) = 2%Z <-> cli = UsageError)
  /\ (snd (main cli describe readme git) = 0%Z
      <-> cli = HelpRequested
          \/ exists args start context commits,
               cli = Parsed args
               /\ start_ref args describe = Py.Ok (Some start)
               /\ CommitEnhancer readme = Py.Ok context
               /\ get_commits git start (to_ref args) = Py.Ok commits).
Proof.
  destruct cli as [args| |].
  - destruct (start_ref args describe) as [[start|]|e] eqn:Hstart.
    + destruct (CommitEnhancer readme) as [context|e] eqn:Hctx.
      * rewrite (main_parsed args describe readme git start context
                   Hstart Hctx).
        destruct (get_commits git start (to_ref args)) as [commits|e] eqn:E.
        -- cbn [snd]. split; [auto|]. split; [split; discriminate|].
           split; [|reflexivity]. intros _. right.
           exists args, start, context, commits. auto.
        -- assert (H : forall (x y : list main_line * Z),
                     snd x = 1%Z -> snd y = 1%Z ->
                     snd match e with
                         | Py.CalledProcessError _ => x
                         | _ => y
                         end = 1%Z) by (intros; now destruct e).
           assert (Hone : snd (match e with
                     | Py.CalledProcessError returncode =>
                         ([Analyzing start (to_ref args);
                           GitCommandFailed
                             (Py.CalledProcessError returncode)], 1%Z)
                     | _ =>
                         ([Analyzing start (to_ref args); ErrorLine e;
                           Traceback e], 1%Z)
                     end) = 1%Z) by now destruct e.
           rewrite Hone. split; [auto|]. split; [split; discriminate|].
           split; [discriminate|].
           intros [[=]|(args' & start' & context' & commits & [= <-] & Hs
                        & _ & Hc)].
           rewrite Hstart in Hs. injection Hs as <-. congruence.
      * unfold main. rewrite Hstart, Hctx. cbn [snd].
        split; [auto|]. split; [split; discriminate|].
        split; [discriminate|].
        intros [[=]|(args' & start' & context' & commits & [= <-] & _
                     & [=] & _)].
    + unfold main. rewrite Hstart. cbn [snd].
      split; [auto|]. split; [split; discriminate|].
      split; [discriminate|].
      intros [[=]|(args' & start' & context' & commits & [= <-] & Hs & _)].
      rewrite Hstart in Hs. discriminate.
    + unfold main. rewrite Hstart. cbn [snd].
      split; [auto|]. split; [split; discriminate|].
      split; [discriminate|].
      intros [[=]|(args' & start' & context' & commits & [= <-] & Hs & _)].
      rewrite Hstart in Hs. discriminate.
  - cbn. split; [auto|]. split; [split; discriminate|].
    split; [auto | reflexivity].
  - cbn. split; [auto|]. split; [split; reflexivity|].
    split; [discriminate|].
    intros [[=]|(args' & start' & context' & commits & [=] & _)].
Qed.

(** Once the options are parsed, a start of range is known and README.md
    is absent or has been read: a log query that ends with a failure
    status is fatal and is told apart from a range without commits.  The
    parser raises [CalledProcessError] with that status and the command
    prints the failure and ends with status 1; on a log that succeeds and
    is empty the command reports 0 commits, prints an empty preview
    without tip and ends with status 0. *)
Theorem failed_log_is_not_empty_log args describe readme git start context :
  start_ref args describe = Py.Ok (Some start) ->
  CommitEnhancer readme = Py.Ok context ->
  (forall returncode out,
      git_log git (start +:+ ".." +:+ to_ref args)
      = Py.Ok {| Py.returncode := returncode; Py.stdout := out |} ->
      returncode <> 0%Z ->
      get_commits git start (to_ref args)
      = Py.Raise (Py.CalledProcessError returncode)
      /\ main (Parsed args) describe readme git
         = ([Analyzing start (to_ref args);
             GitCommandFailed (Py.CalledProcessError returncode)], 1%Z))
  /\ (git_log git (start +:+ ".." +:+ to_ref args)
      = Py.Ok {| Py.returncode := 0; Py.stdout := "" |} ->
      main (Parsed args) describe readme git
      = ([Analyzing start (to_ref args); FoundCommits 0;
          Preview PreviewHeader; Preview Rule; Preview (FoundLine 0)],
         0%Z)).
Proof.
  intros Hstart Hctx.
  rewrite (main_parsed args describe readme git start context Hstart Hctx).
  split.
  - intros returncode out Hlog Hrc.
    assert (Hget : get_commits git start (to_ref args)
                   = Py.Raise (Py.CalledProcessError returncode)).
    { unfold get_commits, mbind, result_bind, Py.run. rewrite Hlog.
      cbn [Py.bind Py.returncode andb].
      apply Z.eqb_neq in Hrc. now rewrite Hrc. }
    split; [exact Hget|]. now rewrite Hget.
  - intros Hlog.
    rewrite (no_delimiter_no_commits git start (to_ref args) ""
               Hlog eq_refl).
    rewrite preview_enhancements_eq.
    unfold previewed. rewrite slice_of_empty. reflexivity.
Qed.

Lemma enhance_commit_any_readme readme commit :
  enhance_commit (_load_project_context readme) commit
  = enhance_commit static_context commit.
Proof.
  unfold enhance_commit. now rewrite context_prefix_static.
Qed.

Lemma preview_loop_any_readme readme commits : forall enhanced_count out,
  preview_loop (_load_project_context readme) commits enhanced_count out
  = preview_loop static_context commits enhanced_count out.
Proof.
  induction commits as [|commit rest IH]; intros enhanced_count out;
    [reflexivity|].
  cbn [preview_loop]. rewrite enhance_commit_any_readme.
  destruct (needs_enhancement commit); [|apply IH].
  destruct (enhance_commit static_context commit); [apply IH | reflexivity].
Qed.

Lemma loaded_context readme context :
  CommitEnhancer readme = Py.Ok context ->
  exists content, context = _load_project_context content.
Proof.
  destruct readme as [|content|e]; cbn [CommitEnhancer]; intros H.
  - injection H as <-. now exists None.
  - injection H as <-. now exists (Some content).
  - discriminate H.
Qed.

(** The text of README.md has no effect.  When README.md is absent or
    can be read, the command prints the same and ends the same whatever
    the file holds: the static text of the context is longer than the
    500 characters that a template takes from the context.  README.md
    matters only when reading it raises: then, once a start of range is
    known, the command ends with a trace and status 1 before any log
    query. *)
Theorem readme_text_has_no_effect cli describe readme1 readme2 git :
  (forall context1 context2,
      CommitEnhancer readme1 = Py.Ok context1 ->
      CommitEnhancer readme2 = Py.Ok context2 ->
      main cli describe readme1 git = main cli describe readme2 git)
  /\ (forall args start e,
         cli = Parsed args ->
         start_ref args describe = Py.Ok (Some start) ->
         readme1 = ReadmeUnreadable e ->
         main cli describe readme1 git
         = ([Analyzing start (to_ref args); Traceback e], 1%Z)).
Proof.
  split.
  - intros context1 context2 H1 H2.
    destruct cli as [args| |]; [|reflexivity|reflexivity].
    unfold main. rewrite H1, H2.
    destruct (start_ref args describe) as [[start|]|e]; try reflexivity.
    destruct (get_commits git start (to_ref args)); [|reflexivity].
    destruct (loaded_context _ _ H1) as [c1 ->].
    destruct (loaded_context _ _ H2) as [c2 ->].
    unfold preview_enhancements.
    now rewrite !preview_loop_any_readme.
  - intros args start e -> Hstart ->. unfold main. now rewrite Hstart.
Qed.

End MainFacts.

(** ** More on the comparator *)

Section ComparatorMore.

Import Perf.

Variable float_of_string : string -> option spec_float.

(** Whatever the two files hold, the process ends with status 0 or 1:
    every exception that is not caught ends it with 1 as well. *)
Theorem exit_code_zero_or_one latest report :
  exit_code (check_regression float_of_string latest report) = 0%Z
  \/ exit_code (check_regression float_of_string latest report) = 1%Z.
Proof.
  unfold exit_code, check_regression.
  destruct latest as [| |baseline]; [now left | now left |].
  destruct (read_current float_of_string report) as [[current|]|e];
    [|now right|now right].
  destruct (get_search_ms baseline) as [v|e]; [|now right].
  destruct (_ || eq_zero v); [now left|].
  destruct (as_float v) as [b|e]; [|now right].
  destruct (flt (fmul b threshold) current); [|now left].
  destruct (is_zero b); now right.
Qed.

Lemma split_search_row cell rest :
  Py.contains "|" cell = false ->
  Py.split "|" ("| search |" +:+ cell +:+ "|" +:+ rest)
  = "" :: " search " :: cell :: Py.split "|" rest.
Proof.
  intros Hcell. unfold Py.split.
  change ("| search |" +:+ cell +:+ "|" +:+ rest)
    with ("" +:+ String "|" (" search " +:+ String "|"
                               (cell +:+ String "|" rest))).
  rewrite !split_char_app.
  change (Py.split_go "|" 0 "" cell) with (Py.split "|" cell).
  rewrite (split_none "|" cell) by now apply contains_clean.
  reflexivity.
Qed.

(** For reports whose whole content decodes as text.  Two reports
    with the same first line that holds "| search |" give the same
    measurement, or the same error: the lines before that line, which
    do not hold the marker, and the lines after it change nothing.
    When that line starts with the marker, as the table row
    "| search |cell|..." with no "|" in the cell, what is given to
    [float] is the cell, trimmed and without "ms": a number there is
    the measurement and anything else is [ValueError]. *)
Theorem measurement_of_first_search_row :
  (forall s1 s2 before1 before2 line after1 after2,
      Py.readlines s1 = before1 ++ line :: after1 ->
      Py.readlines s2 = before2 ++ line :: after2 ->
      Forall (fun l => Py.contains "| search |" l = false) before1 ->
      Forall (fun l => Py.contains "| search |" l = false) before2 ->
      Py.contains "| search |" line = true ->
      read_current float_of_string (Content s1)
      = read_current float_of_string (Content s2))
  /\ (forall s before cell rest after,
         Py.readlines s
         = before ++ ("| search |" +:+ cell +:+ "|" +:+ rest) :: after ->
         Forall (fun l => Py.contains "| search |" l = false) before ->
         Py.contains "|" cell = false ->
         read_current float_of_string (Content s)
         = match float_of_string (Py.replace "ms" "" (Py.strip cell)) with
           | Some measured => Py.Ok (Some measured)
           | None => Py.Raise Py.ValueError
           end).
Proof.
  split.
  - intros s1 s2 before1 before2 line after1 after2 H1 H2 Hb1 Hb2 Hline.
    unfold read_current.
    rewrite H1, H2, !find_search_skip by assumption.
    cbn [find_search]. now rewrite Hline.
  - intros s before cell rest after Hlines Hbefore Hcell.
    unfold read_current.
    rewrite Hlines, find_search_skip by exact Hbefore.
    cbn [find_search].
    assert (Hmark : Py.contains "| search |"
                      ("| search |" +:+ cell +:+ "|" +:+ rest) = true).
    { destruct cell; reflexivity. }
    rewrite Hmark, split_search_row by exact Hcell. reflexivity.
Qed.

(** A baseline whose [search_ms] is not a number (a string, a list, an
    object) does not switch the gate off: after the two values are
    printed the multiplication raises [TypeError] and the process ends
    with status 1.  So does a baseline file that holds something other
    than an object, at the lookup of the key. *)
Theorem non_numeric_baseline_fails (d : gmap string pyval) report current :
  read_current float_of_string report = Py.Ok (Some current) ->
  (forall v,
      d !! "search_ms" = Some v ->
      (exists text, v = PyStr text) \/ v = PyList \/ v = PyDict ->
      check_regression float_of_string (Loaded (Dict d)) report
      = ([BaselineSearch v; CurrentSearch current], Py.Raise Py.TypeError)
      /\ exit_code (check_regression float_of_string (Loaded (Dict d)) report)
         = 1%Z)
  /\ check_regression float_of_string (Loaded NotDict) report
     = ([], Py.Raise Py.AttributeError)
  /\ exit_code (check_regression float_of_string (Loaded NotDict) report)
     = 1%Z.
Proof.
  intros Hcur. split; [|split].
  - intros v Hv Hkind. rewrite (check_loaded _ _ _ _ Hcur).
    unfold exit_code, get_search_ms. rewrite Hv.
    destruct Hkind as [[text ->]|[->| ->]]; split; reflexivity.
  - now rewrite (check_loaded _ _ _ _ Hcur).
  - now rewrite (check_loaded _ _ _ _ Hcur).
Qed.

Lemma flt_nan_r x : flt x S754_nan = false.
Proof. now destruct x. Qed.

(** A measurement or a baseline that is not a number in the sense of
    binary64 (NaN) never makes the gate fail: every comparison with it is
    false, and the process ends with status 0. *)
Theorem nan_passes (d : gmap string pyval) report current v b :
  read_current float_of_string report = Py.Ok (Some current) ->
  d !! "search_ms" = Some v ->
  as_float v = Py.Ok b ->
  current = S754_nan \/ b = S754_nan ->
  exit_code (check_regression float_of_string (Loaded (Dict d)) report)
  = 0%Z.
Proof.
  intros Hcur Hv Hb Hnan. rewrite (check_loaded _ _ _ _ Hcur).
  unfold exit_code, get_search_ms. rewrite Hv.
  destruct (_ || eq_zero v); [reflexivity|]. rewrite Hb.
  assert (Hflt : flt (fmul b threshold) current = false)
    by (destruct Hnan as [->| ->]; [apply flt_nan_r | reflexivity]).
  now rewrite Hflt.
Qed.

Ltac compare_fields :=
  repeat match goal with
    | H : context [PosDef.Pos.compare_cont Eq ?a ?b] |- _ =>
        change (PosDef.Pos.compare_cont Eq a b) with (Pos.compare a b) in H
    | |- context [PosDef.Pos.compare_cont Eq ?a ?b] =>
        change (PosDef.Pos.compare_cont Eq a b) with (Pos.compare a b)
    | H : context [Z.compare ?a ?b] |- _ =>
        destruct (Z.compare_spec a b); try subst
    | |- context [Z.compare ?a ?b] =>
        destruct (Z.compare_spec a b); try subst
    | H : context [Pos.compare ?a ?b] |- _ =>
        destruct (Pos.compare_spec a b); try subst
    | |- context [Pos.compare ?a ?b] =>
        destruct (Pos.compare_spec a b); try subst
    end.

(** [<] followed by [<=] is [<], on all floats. *)
Lemma flt_leb_trans x y z :
  flt x y = true -> SFleb y z = true -> flt x z = true.
Proof.
  unfold flt, SFltb, SFleb, SFcompare.
  destruct x as [sx|sx| |sx mx ex], y as [sy|sy| |sy my ey],
           z as [sz|sz| |sz mz ez];
    try destruct sx; try destruct sy; try destruct sz;
    try (intros; discriminate); try reflexivity;
    intros H1 H2;
    compare_fields; simpl in *; try discriminate; try reflexivity; try lia.
Qed.

(** The gate is monotone in the measurement: against the same baseline,
    when a measurement fails, every measurement that is not smaller
    fails as well. *)
Theorem slower_fails_too (d : gmap string pyval) report1 report2
  current1 current2 :
  read_current float_of_string report1 = Py.Ok (Some current1) ->
  read_current float_of_string report2 = Py.Ok (Some current2) ->
  SFleb current1 current2 = true ->
  exit_code (check_regression float_of_string (Loaded (Dict d)) report1)
  = 1%Z ->
  exit_code (check_regression float_of_string (Loaded (Dict d)) report2)
  = 1%Z.
Proof.
  intros H1 H2 Hle.
  rewrite (check_loaded _ _ _ _ H1), (check_loaded _ _ _ _ H2).
  unfold exit_code. destruct (get_search_ms (Dict d)) as [v|e]; [|auto].
  destruct (_ || eq_zero v); [auto|].
  destruct (as_float v) as [b|e]; [|auto].
  destruct (flt (fmul b threshold) current1) eqn:E1.
  - rewrite (flt_leb_trans _ _ _ E1 Hle). destruct (is_zero b); auto.
  - cbn. discriminate.
Qed.

End ComparatorMore.

(** ** The further statements at work on concrete inputs *)

Section MoreInstances.

Import Enhancer Perf.

Lemma get_commits_maps_blocks_witness :
  get_commits
    (constant_git ("abc123|||fix|||body|||END_COMMIT" +:+ nl +:+ "junk")
       (Py.Ok {| Py.returncode := 0; Py.stdout := " 1 file changed" |}))
    "v0.1.135" "HEAD"
  = Py.Ok [ {| hash := "abc123"; subject := "fix"; body := "body";
               files_changed := []; stats := "1 file changed" |} ].
Proof.
  apply (get_commits_maps_blocks
           (constant_git
              ("abc123|||fix|||body|||END_COMMIT" +:+ nl +:+ "junk")
              (Py.Ok {| Py.returncode := 0;
                        Py.stdout := " 1 file changed" |}))
           "v0.1.135" "HEAD"
           ("abc123|||fix|||body|||END_COMMIT" +:+ nl +:+ "junk")
           (fun _ => {| Py.returncode := 0;
                        Py.stdout := " 1 file changed" |}));
    reflexivity.
Defined.

Lemma get_commits_of_blocks_witness :
  get_commits
    (constant_git
       (log_of_blocks
          [ ("abc123", "fix", "why" +:+ nl +:+ "src/a.rs");
            (nl +:+ "def456", "add: x", "") ])
       (Py.Ok {| Py.returncode := 0; Py.stdout := "" |}))
    "v0.1.135" "HEAD"
  = Py.Ok [ {| hash := "abc123"; subject := "fix"; body := "why";
               files_changed := ["src/a.rs"]; stats := "" |};
            {| hash := "def456"; subject := "add: x"; body := "";
               files_changed := []; stats := "" |} ].
Proof.
  apply (get_commits_of_blocks
           (constant_git
              (log_of_blocks
                 [ ("abc123", "fix", "why" +:+ nl +:+ "src/a.rs");
                   (nl +:+ "def456", "add: x", "") ])
              (Py.Ok {| Py.returncode := 0; Py.stdout := "" |}))
           "v0.1.135" "HEAD"
           [ ("abc123", "fix", "why" +:+ nl +:+ "src/a.rs");
             (nl +:+ "def456", "add: x", "") ]
           (fun _ => {| Py.returncode := 0; Py.stdout := "" |}));
    [reflexivity | reflexivity | repeat constructor].
Defined.

Lemma get_commits_without_delimiter_witness :
  get_commits
    (constant_git "fatal: not a log" (Py.Raise Py.OSError))
    "v0.1.135" "HEAD"
  = Py.Ok [].
Proof.
  apply (get_commits_without_delimiter
           (constant_git "fatal: not a log" (Py.Raise Py.OSError))
           "v0.1.135" "HEAD" "fatal: not a log");
    reflexivity.
Defined.

Lemma broken_stats_tool_is_fatal_witness :
  get_commits
    (constant_git "abc123|||fix|||body|||END_COMMIT"
       (Py.Raise Py.OSError))
    "v0.1.135" "HEAD"
  = Py.Raise Py.OSError.
Proof.
  apply (broken_stats_tool_is_fatal
           (constant_git "abc123|||fix|||body|||END_COMMIT"
              (Py.Raise Py.OSError))
           "v0.1.135" "HEAD" "abc123|||fix|||body|||END_COMMIT"
           Py.OSError);
    reflexivity.
Defined.

Lemma get_commits_tidy_witness :
  Forall tidy_record
    [ {| hash := "abc123"; subject := "fix"; body := "why";
         files_changed := ["src/a.rs"; "notes.txt"]; stats := "" |} ].
Proof.
  apply (get_commits_tidy
           (constant_git
              (" abc123 ||| fix |||why " +:+ nl +:+ "src/a.rs" +:+ nl
               +:+ "  " +:+ nl +:+ "notes.txt" +:+ nl +:+ "|||END_COMMIT")
              (Py.Ok {| Py.returncode := 1; Py.stdout := "" |}))
           "v0.1.135" "HEAD").
  reflexivity.
Defined.

Lemma preview_enhancements_spec_witness :
  length
    (previewed
       [ {| hash := "abc123"; subject := "wip"; body := "";
            files_changed := []; stats := "" |};
         {| hash := "def456"; subject := "fix"; body := "";
            files_changed := []; stats := "" |} ] 1)
  <= Z.to_nat 1.
Proof.
  apply (proj2 (proj2 (preview_enhancements_spec static_context
           [ {| hash := "abc123"; subject := "wip"; body := "";
                files_changed := []; stats := "" |};
             {| hash := "def456"; subject := "fix"; body := "";
                files_changed := []; stats := "" |} ] 1))).
  lia.
Defined.

Lemma failed_log_is_not_empty_log_witness :
  main
    (Parsed {| from_ref := Some "v0.1.135"; to_ref := "HEAD"; limit := 10 |})
    (Py.Raise Py.OSError) ReadmeMissing
    (constant_git "" (Py.Raise Py.OSError))
  = ([Analyzing "v0.1.135" "HEAD"; FoundCommits 0;
      Preview PreviewHeader; Preview Rule; Preview (FoundLine 0)],
     0%Z).
Proof.
  apply (proj2 (failed_log_is_not_empty_log
           {| from_ref := Some "v0.1.135"; to_ref := "HEAD"; limit := 10 |}
           (Py.Raise Py.OSError) ReadmeMissing
           (constant_git "" (Py.Raise Py.OSError))
           "v0.1.135" (_load_project_context None) eq_refl eq_refl)).
  reflexivity.
Defined.

Lemma readme_text_has_no_effect_witness :
  main
    (Parsed {| from_ref := None; to_ref := "HEAD"; limit := 10 |})
    (Py.Ok {| Py.returncode := 0; Py.stdout := "v0.1.135" +:+ nl |})
    ReadmeMissing
    (constant_git "abc123|||wip|||" (Py.Ok {| Py.returncode := 0;
                                              Py.stdout := "" |}))
  = main
      (Parsed {| from_ref := None; to_ref := "HEAD"; limit := 10 |})
      (Py.Ok {| Py.returncode := 0; Py.stdout := "v0.1.135" +:+ nl |})
      (ReadmeText "# OMG, the fastest package manager")
      (constant_git "abc123|||wip|||" (Py.Ok {| Py.returncode := 0;
                                                Py.stdout := "" |})).
Proof.
  apply (proj1 (readme_text_has_no_effect
           (Parsed {| from_ref := None; to_ref := "HEAD"; limit := 10 |})
           (Py.Ok {| Py.returncode := 0; Py.stdout := "v0.1.135" +:+ nl |})
           ReadmeMissing
           (ReadmeText "# OMG, the fastest package manager")
           (constant_git "abc123|||wip|||"
              (Py.Ok {| Py.returncode := 0; Py.stdout := "" |})))
           (_load_project_context None)
           (_load_project_context
              (Some "# OMG, the fastest package manager")));
    reflexivity.
Defined.

Lemma measurement_of_first_search_row_witness :
  read_current decimal_float (Content (report_with "6.25ms"))
  = match decimal_float (Py.replace "ms" "" (Py.strip " 6.25ms ")) with
    | Some measured => Py.Ok (Some measured)
    | None => Py.Raise Py.ValueError
    end.
Proof.
  apply (proj2 (measurement_of_first_search_row decimal_float)
           (report_with "6.25ms")
           [ "# Benchmark Report" +:+ nl;
             nl;
             "| Command | OMG (Daemon) | pacman | yay | Speedup vs pacman |"
               +:+ nl;
             "|---------|--------------|--------|-----|-------------------|"
               +:+ nl ]
           " 6.25ms " (" 133.00ms | 150.00ms | 1.2x |" +:+ nl)
           [ "| info | 6.50ms | 138.00ms | 300.00ms | 21x |" +:+ nl ]);
    [reflexivity | repeat constructor | reflexivity].
Defined.

Lemma non_numeric_baseline_fails_witness :
  check_regression decimal_float (baseline_of (PyStr "100"))
    (Content (report_with "110.00ms"))
  = ([BaselineSearch (PyStr "100");
      CurrentSearch (S754_finite false 7740561859543040 (-46))],
     Py.Raise Py.TypeError)
  /\ exit_code
       (check_regression decimal_float (baseline_of (PyStr "100"))
          (Content (report_with "110.00ms")))
     = 1%Z.
Proof.
  destruct (non_numeric_baseline_fails decimal_float
              {[ "search_ms" := PyStr "100" ]}
              (Content (report_with "110.00ms"))
              (S754_finite false 7740561859543040 (-46))) as [H _];
    [reflexivity|].
  apply H; [reflexivity|]. left. now exists "100".
Defined.

Lemma nan_passes_witness :
  exit_code
    (check_regression decimal_float (baseline_of (PyFloat S754_nan))
       (Content (report_with "110.00ms")))
  = 0%Z.
Proof.
  apply (nan_passes decimal_float
           {[ "search_ms" := PyFloat S754_nan ]}
           (Content (report_with "110.00ms"))
           (S754_finite false 7740561859543040 (-46))
           (PyFloat S754_nan) S754_nan);
    [reflexivity | reflexivity | reflexivity | now right].
Defined.

Lemma slower_fails_too_witness :
  exit_code
    (check_regression decimal_float (baseline_of (PyInt 100))
       (Content (report_with "130.00ms")))
  = 1%Z.
Proof.
  apply (slower_fails_too decimal_float
           {[ "search_ms" := PyInt 100 ]}
           (Content (report_with "120.00ms"))
           (Content (report_with "130.00ms"))
           (S754_finite false 8444249301319680 (-46))
           (S754_finite false 4573968371548160 (-45)));
    reflexivity.
Defined.

End MoreInstances.
